(** * PhysiCode: scalar fields, iso-surface extraction and industrial analysis

    A shallow embedding of [core/fields.py], [core/tpms.py],
    [geometry/marching_cubes.py] and [geometry/industrial.py].

    Python [float] values are idealised as real numbers ([R]); Python
    exceptions are values of an error monad.  The third-party libraries the
    code calls are modelled by the part of their documented behaviour the
    code relies on, in the modules [np], [trimesh] and [skimage]; the
    library operations whose results are left open (the triangulations and
    the mesh constructors) are the fields of [marching_cubes.Libs]. *)

From Stdlib Require Import Reals Lra Lia List ZArith Bool Arith.
Import ListNotations.

(* ===================================================================== *)
(** * Python outcomes *)
(* ===================================================================== *)

Module Py.

(** The exception classes that occur in the modelled code paths. *)
Inductive exn : Type :=
| ImportError
| ValueError
| TypeError
| IndexError
| ZeroDivisionError.

(** The outcome of evaluating an expression: a value, or a raised exception. *)
Inductive result (A : Type) : Type :=
| Ok (a : A)
| Raise (e : exn).

Arguments Ok {A} a.
Arguments Raise {A} e.

Definition bind {A B : Type} (m : result A) (k : A -> result B) : result B :=
  match m with
  | Ok a => k a
  | Raise e => Raise e
  end.

End Py.

Export Py.

Declare Scope py_scope.
Delimit Scope py_scope with py.
Notation "x <- m ;; k" := (Py.bind m (fun x => k))
  (at level 61, m at next level, right associativity) : py_scope.
Open Scope py_scope.
Open Scope R_scope.

(* ===================================================================== *)
(** * numpy: scalars, one-dimensional arrays and element-wise arithmetic *)
(* ===================================================================== *)

Module np.

(** A coordinate argument is a Python float or an array.  Arrays are kept as
    the sequence of their elements; the grids built by [meshgrid] are kept
    in row-major (ravelled) order, which element-wise operations on operands
    of one common shape respect. *)
Inductive ndarray : Type :=
| Scalar (r : R)
| Arr (l : list R).

(** A unary ufunc ([np.sin], [np.cos], [np.abs]) acts element-wise. *)
Definition ufunc1 (f : R -> R) (a : ndarray) : ndarray :=
  match a with
  | Scalar r => Scalar (f r)
  | Arr l => Arr (map f l)
  end.

Fixpoint zip_with (f : R -> R -> R) (l1 l2 : list R) : list R :=
  match l1, l2 with
  | a :: l1', b :: l2' => f a b :: zip_with f l1' l2'
  | _, _ => []
  end.

(** A binary operator broadcasts: a scalar against anything, two arrays of
    equal length element by element, an array of length one against any
    array; any other pair of lengths raises [ValueError] (operands could not
    be broadcast together). *)
Definition ufunc2 (f : R -> R -> R) (a b : ndarray) : result ndarray :=
  match a, b with
  | Scalar x, Scalar y => Ok (Scalar (f x y))
  | Scalar x, Arr l => Ok (Arr (map (fun y => f x y) l))
  | Arr l, Scalar y => Ok (Arr (map (fun x => f x y) l))
  | Arr l1, Arr l2 =>
      if Nat.eqb (length l1) (length l2) then Ok (Arr (zip_with f l1 l2))
      else match l1, l2 with
           | [x], _ => Ok (Arr (map (fun y => f x y) l2))
           | _, [y] => Ok (Arr (map (fun x => f x y) l1))
           | _, _ => Raise ValueError
           end
  end.

Definition sin : ndarray -> ndarray := ufunc1 Rtrigo_def.sin.
Definition cos : ndarray -> ndarray := ufunc1 Rtrigo_def.cos.
Definition abs : ndarray -> ndarray := ufunc1 Rabs.
Definition add : ndarray -> ndarray -> result ndarray := ufunc2 Rplus.
Definition subtract : ndarray -> ndarray -> result ndarray := ufunc2 Rminus.
Definition multiply : ndarray -> ndarray -> result ndarray := ufunc2 Rmult.

(** ** Grids *)

Fixpoint set_last (l : list R) (v : R) : list R :=
  match l with
  | [] => []
  | [_] => [v]
  | a :: l' => a :: set_last l' v
  end.

(** [np.linspace(start, stop, num)]: [num] evenly spaced samples with both
    end points, computed as [arange(num) * step + start] with the last
    sample set to [stop]; a negative [num] raises [ValueError], [num = 1]
    gives [[start]]. *)
Definition linspace (start stop : R) (num : Z) : result (list R) :=
  if (num <? 0)%Z then Raise ValueError
  else
    let div := (num - 1)%Z in
    let y := map INR (seq 0 (Z.to_nat num)) in
    let delta := stop - start in
    let y := if (0 <? div)%Z
             then map (fun i => i * (delta / IZR div)) y
             else map (fun i => i * delta) y in
    let y := map (fun v => v + start) y in
    Ok (if (1 <? num)%Z then set_last y stop else y).

(** [np.meshgrid(x, y, z, indexing='ij')]: three arrays of shape
    [(len x, len y, len z)] with [X[i,j,k] = x[i]], [Y[i,j,k] = y[j]],
    [Z[i,j,k] = z[k]], here in row-major order. *)
Definition meshgrid (x y z : list R) : list R * list R * list R :=
  (flat_map (fun xi => flat_map (fun yj => map (fun zk => xi) z) y) x,
   flat_map (fun xi => flat_map (fun yj => map (fun zk => yj) z) y) x,
   flat_map (fun xi => flat_map (fun yj => map (fun zk => zk) z) y) x).

(** ** Reductions, comparison and boolean indexing *)

Definition sum (l : list R) : R := fold_right Rplus 0 l.

Definition mean (l : list R) : R := sum l / INR (length l).

(** [np.std]: the population standard deviation; 0 for a scalar. *)
Definition std (a : ndarray) : R :=
  match a with
  | Scalar _ => 0
  | Arr l => sqrt (mean (map (fun v => Rabs (v - mean l) ^ 2) l))
  end.

Definition amin (d : R) (l : list R) : R := fold_right Rmin d l.
Definition amax (d : R) (l : list R) : R := fold_right Rmax d l.

(** The result of [a < t] for a number [t]: one boolean or an array. *)
Inductive mask : Type :=
| MaskScalar (b : bool)
| MaskArr (bs : list bool).

Definition ltb (v t : R) : bool := if Rlt_dec v t then true else false.

Definition less (a : ndarray) (t : R) : mask :=
  match a with
  | Scalar r => MaskScalar (ltb r t)
  | Arr l => MaskArr (map (fun v => ltb v t) l)
  end.

Fixpoint select {A : Type} (l : list A) (bs : list bool) : list A :=
  match l, bs with
  | a :: l', b :: bs' => if b then a :: select l' bs' else select l' bs'
  | _, _ => []
  end.

(** [X[mask]] for a boolean array: the selected elements; a mask of another
    size raises [IndexError]. *)
Definition getitem (X : list R) (bs : list bool) : result (list R) :=
  if Nat.eqb (length bs) (length X) then Ok (select X bs)
  else Raise IndexError.


(** ** Further element-wise functions and stacking *)

(** [np.sqrt], element-wise; it is applied to sums of squares only. *)
Definition sqrt : ndarray -> ndarray := ufunc1 R_sqrt.sqrt.

(** [a ** n] for a literal exponent [n]. *)
Definition power (a : ndarray) (n : nat) : ndarray :=
  ufunc1 (fun v => v ^ n) a.

Fixpoint rows (a b c : list R) : list (R * R * R) :=
  match a, b, c with
  | u :: a', v :: b', w :: c' => (u, v, w) :: rows a' b' c'
  | _, _, _ => []
  end.

(** [np.stack([a, b, c], axis=1)] for one-dimensional arrays: the rows
    [(a[i], b[i], c[i])]; arrays of different lengths raise [ValueError]. *)
Definition stack_axis1 (a b c : list R) : result (list (R * R * R)) :=
  if Nat.eqb (length a) (length b) && Nat.eqb (length b) (length c)
  then Ok (rows a b c)
  else Raise ValueError.

End np.

(* ===================================================================== *)
(** * core/fields.py *)
(* ===================================================================== *)

Module fields.

(** The state every [ScalarField] carries: [self.scale] and [self.offset]. *)
Record ScalarField : Type := {
  scale : R;
  offset : R * R * R
}.

(** [ScalarField.__init__] with its default arguments. *)
Definition default_scale : R := 1.
Definition default_offset : R * R * R := (0, 0, 0).

Definition offset_0 (o : R * R * R) : R := fst (fst o).
Definition offset_1 (o : R * R * R) : R := snd (fst o).
Definition offset_2 (o : R * R * R) : R := snd o.

(** A concrete field class: it holds the base-class state and implements
    the abstract method [evaluate]. *)
Class Field (T : Type) : Type := {
  base : T -> ScalarField;
  evaluate : T -> np.ndarray -> np.ndarray -> np.ndarray -> result np.ndarray
}.

(** [ScalarField.__call__]. *)
Definition call {T : Type} `{Field T} (self : T) (x y z : np.ndarray)
  : result np.ndarray :=
  x_scaled <- (xs <- np.multiply x (np.Scalar (scale (base self))) ;;
               np.add xs (np.Scalar (offset_0 (offset (base self))))) ;;
  y_scaled <- (ys <- np.multiply y (np.Scalar (scale (base self))) ;;
               np.add ys (np.Scalar (offset_1 (offset (base self))))) ;;
  z_scaled <- (zs <- np.multiply z (np.Scalar (scale (base self))) ;;
               np.add zs (np.Scalar (offset_2 (offset (base self))))) ;;
  evaluate self x_scaled y_scaled z_scaled.


(** [ScalarField.evaluate_grid]: the lattice points, one row per point, and
    the field called on the ravelled coordinate arrays. *)
Definition evaluate_grid {T : Type} `{Field T} (self : T)
  (x_range y_range z_range : R * R) (resolution : Z)
  : result (list (R * R * R) * np.ndarray) :=
  x <- np.linspace (fst x_range) (snd x_range) resolution ;;
  y <- np.linspace (fst y_range) (snd y_range) resolution ;;
  z <- np.linspace (fst z_range) (snd z_range) resolution ;;
  let '(X, Y, Z) := np.meshgrid x y z in
  coords <- np.stack_axis1 X Y Z ;;
  values <- call self (np.Arr X) (np.Arr Y) (np.Arr Z) ;;
  Ok (coords, values).

End fields.

Import fields.

(* ===================================================================== *)
(** * core/tpms.py *)
(* ===================================================================== *)

Module tpms.

(** [class Gyroid(ScalarField)]: the inherited state and [self.thickness]. *)
Record Gyroid : Type := {
  Gyroid_base : ScalarField;
  Gyroid_thickness : R
}.

(** [Gyroid.__init__(scale, thickness)]: [super().__init__(scale=scale)]
    leaves the offset at its default. *)
Definition Gyroid_init (scale thickness : R) : Gyroid :=
  {| Gyroid_base := {| scale := scale; offset := default_offset |};
     Gyroid_thickness := thickness |}.

(** [Gyroid.evaluate]. *)
Definition Gyroid_evaluate (self : Gyroid) (x y z : np.ndarray)
  : result np.ndarray :=
  t1 <- np.multiply (np.sin x) (np.cos y) ;;
  t2 <- np.multiply (np.sin y) (np.cos z) ;;
  s12 <- np.add t1 t2 ;;
  t3 <- np.multiply (np.sin z) (np.cos x) ;;
  value <- np.add s12 t3 ;;
  if Rlt_dec 0 (Gyroid_thickness self)
  then np.subtract (np.abs value) (np.Scalar (Gyroid_thickness self))
  else Ok value.

#[export] Instance Gyroid_Field : Field Gyroid := {
  base := Gyroid_base;
  evaluate := Gyroid_evaluate
}.

(** [class SchwarzP(ScalarField)]. *)
Record SchwarzP : Type := {
  SchwarzP_base : ScalarField;
  SchwarzP_thickness : R
}.

Definition SchwarzP_init (scale thickness : R) : SchwarzP :=
  {| SchwarzP_base := {| scale := scale; offset := default_offset |};
     SchwarzP_thickness := thickness |}.

(** [SchwarzP.evaluate]. *)
Definition SchwarzP_evaluate (self : SchwarzP) (x y z : np.ndarray)
  : result np.ndarray :=
  s12 <- np.add (np.cos x) (np.cos y) ;;
  value <- np.add s12 (np.cos z) ;;
  if Rlt_dec 0 (SchwarzP_thickness self)
  then np.subtract (np.abs value) (np.Scalar (SchwarzP_thickness self))
  else Ok value.

#[export] Instance SchwarzP_Field : Field SchwarzP := {
  base := SchwarzP_base;
  evaluate := SchwarzP_evaluate
}.

(** The two base formulas, on one point. *)
Definition gyroid_formula (x y z : R) : R :=
  Rtrigo_def.sin x * Rtrigo_def.cos y
  + Rtrigo_def.sin y * Rtrigo_def.cos z
  + Rtrigo_def.sin z * Rtrigo_def.cos x.

Definition schwarz_p_formula (x y z : R) : R :=
  Rtrigo_def.cos x + Rtrigo_def.cos y + Rtrigo_def.cos z.

End tpms.

Import tpms.

(* ===================================================================== *)
(** * tests/test_fields.py: the field used by the unit tests *)
(* ===================================================================== *)

Module test_fields.

(** [class TestScalarField(ScalarField)] with [evaluate = x + y + z]. *)
Record TestScalarField : Type := { TestScalarField_base : ScalarField }.

Definition TestScalarField_evaluate (self : TestScalarField)
  (x y z : np.ndarray) : result np.ndarray :=
  xy <- np.add x y ;; np.add xy z.

#[export] Instance TestScalarField_Field : Field TestScalarField := {
  base := TestScalarField_base;
  evaluate := TestScalarField_evaluate
}.

(** [TestScalarField(scale=..., offset=...)]. *)
Definition TestScalarField_init (scale : R) (offset : R * R * R)
  : TestScalarField :=
  {| TestScalarField_base := {| scale := scale; offset := offset |} |}.

End test_fields.

Import test_fields.

(* ===================================================================== *)
(** * examples/custom_field.py: the custom field classes *)
(* ===================================================================== *)

Module custom_field.

(** [class SinusoidalField(ScalarField)]. *)
Record SinusoidalField : Type := { SinusoidalField_base : ScalarField }.

Definition SinusoidalField_evaluate (self : SinusoidalField)
  (x y z : np.ndarray) : result np.ndarray :=
  sc <- np.multiply (np.sin x) (np.cos y) ;;
  np.multiply sc (np.sin z).

#[export] Instance SinusoidalField_Field : Field SinusoidalField := {
  base := SinusoidalField_base;
  evaluate := SinusoidalField_evaluate
}.

(** [class SphericalField(ScalarField)]. *)
Record SphericalField : Type := { SphericalField_base : ScalarField }.

Definition SphericalField_evaluate (self : SphericalField)
  (x y z : np.ndarray) : result np.ndarray :=
  xy <- np.add (np.power x 2) (np.power y 2) ;;
  xyz <- np.add xy (np.power z 2) ;;
  let r := np.sqrt xyz in
  np.subtract r (np.Scalar (scale (SphericalField_base self))).

#[export] Instance SphericalField_Field : Field SphericalField := {
  base := SphericalField_base;
  evaluate := SphericalField_evaluate
}.


(** [class TorusField(ScalarField)]. *)
Record TorusField : Type := {
  TorusField_base : ScalarField;
  major_radius : R;
  minor_radius : R
}.


Definition TorusField_evaluate (self : TorusField)
  (x y z : np.ndarray) : result np.ndarray :=
  xy <- np.add (np.power x 2) (np.power y 2) ;;
  xy_dist <- np.subtract (np.sqrt xy) (np.Scalar (major_radius self)) ;;
  s <- np.add (np.power xy_dist 2) (np.power z 2) ;;
  np.subtract (np.sqrt s) (np.Scalar (minor_radius self)).

#[export] Instance TorusField_Field : Field TorusField := {
  base := TorusField_base;
  evaluate := TorusField_evaluate
}.

End custom_field.

Import custom_field.

(* ===================================================================== *)
(** * trimesh: the mesh object and the properties the analysis reads *)
(* ===================================================================== *)

Module trimesh.

Definition vec3 : Type := (R * R * R)%type.
Definition face : Type := (nat * nat * nat)%type.
Definition edge : Type := (nat * nat)%type.

(** A [trimesh.Trimesh]: vertex positions, faces as triples of vertex
    indices, and the vertex normals when they were supplied. *)
Record Trimesh : Type := {
  vertices : list vec3;
  faces : list face;
  vertex_normals : option (list vec3)
}.

(** [trimesh.Trimesh()]: the mesh without vertices and faces. *)
Definition Trimesh_init_empty : Trimesh :=
  {| vertices := []; faces := []; vertex_normals := None |}.

(** Every face indexes an existing vertex (the invariant of a mesh). *)
Definition face_in_range (n : nat) (f : face) : bool :=
  let '(a, b, c) := f in (a <? n)%nat && (b <? n)%nat && (c <? n)%nat.

Definition well_formed (m : Trimesh) : bool :=
  forallb (face_in_range (length (vertices m))) (faces m).

Definition vx (v : vec3) : R := fst (fst v).
Definition vy (v : vec3) : R := snd (fst v).
Definition vz (v : vec3) : R := snd v.

Definition vsub (a b : vec3) : vec3 := (vx a - vx b, vy a - vy b, vz a - vz b).

Definition cross (a b : vec3) : vec3 :=
  (vy a * vz b - vz a * vy b,
   vz a * vx b - vx a * vz b,
   vx a * vy b - vy a * vx b).

Definition dot (a b : vec3) : R := vx a * vx b + vy a * vy b + vz a * vz b.

Definition norm (a : vec3) : R := sqrt (dot a a).

Definition vmin (a b : vec3) : vec3 :=
  (Rmin (vx a) (vx b), Rmin (vy a) (vy b), Rmin (vz a) (vz b)).

Definition vmax (a b : vec3) : vec3 :=
  (Rmax (vx a) (vx b), Rmax (vy a) (vy b), Rmax (vz a) (vz b)).

Definition sum (l : list R) : R := fold_right Rplus 0 l.

(** [mesh.referenced_vertices]: which vertices some face uses. *)
Definition face_uses (i : nat) (f : face) : bool :=
  let '(a, b, c) := f in (a =? i)%nat || (b =? i)%nat || (c =? i)%nat.

Definition referenced_vertices (m : Trimesh) : list bool :=
  map (fun i => existsb (face_uses i) (faces m)) (seq 0 (length (vertices m))).

Fixpoint select {A : Type} (l : list A) (mask : list bool) : list A :=
  match l, mask with
  | a :: l', b :: mask' => if b then a :: select l' mask' else select l' mask'
  | _, _ => []
  end.

(** [mesh.bounds]: the axis-aligned bounds of the referenced vertices, and
    [None] when no vertex is referenced. *)
Definition bounds (m : Trimesh) : option (vec3 * vec3) :=
  match select (vertices m) (referenced_vertices m) with
  | [] => None
  | v :: vs => Some (fold_left vmin vs v, fold_left vmax vs v)
  end.

(** [mesh.triangles]: the three corner positions of every face. *)
Definition origin3 : vec3 := (0, 0, 0).

Definition triangle (vs : list vec3) (f : face) : vec3 * vec3 * vec3 :=
  let '(a, b, c) := f in (nth a vs origin3, nth b vs origin3, nth c vs origin3).

Definition triangles (m : Trimesh) : list (vec3 * vec3 * vec3) :=
  map (triangle (vertices m)) (faces m).

(** [mesh.area]: the sum of the triangle areas, half the length of the
    cross product of two edge vectors. *)
Definition triangle_area (t : vec3 * vec3 * vec3) : R :=
  let '(v0, v1, v2) := t in norm (cross (vsub v1 v0) (vsub v2 v0)) / 2.

Definition area (m : Trimesh) : R := sum (map triangle_area (triangles m)).

(** [mesh.volume]: the divergence-theorem volume, one sixth of the sum over
    the faces of [v0 . (v1 x v2)]. *)
Definition signed_tetrahedron (t : vec3 * vec3 * vec3) : R :=
  let '(v0, v1, v2) := t in dot v0 (cross v1 v2).

Definition volume (m : Trimesh) : R :=
  sum (map signed_tetrahedron (triangles m)) / 6.

(** [mesh.edges]: the three directed edges of every face. *)
Definition face_edges (f : face) : list edge :=
  let '(a, b, c) := f in [(a, b); (b, c); (c, a)].

Definition edges (m : Trimesh) : list edge := flat_map face_edges (faces m).

Definition sort_edge (e : edge) : edge :=
  let '(a, b) := e in if (a <=? b)%nat then (a, b) else (b, a).

Definition edge_eqb (e1 e2 : edge) : bool :=
  (fst e1 =? fst e2)%nat && (snd e1 =? snd e2)%nat.

Definition count_edge (e : edge) (l : list edge) : nat :=
  length (filter (edge_eqb e) l).

Definition edges_sorted (m : Trimesh) : list edge := map sort_edge (edges m).

(** [mesh.is_empty]. *)
Definition is_empty (m : Trimesh) : bool :=
  match vertices m with [] => true | _ :: _ => false end.

(** [mesh.is_watertight]: the mesh is not empty and every undirected edge
    belongs to exactly two faces. *)
Definition is_watertight (m : Trimesh) : bool :=
  negb (is_empty m)
  && forallb (fun e => (count_edge e (edges_sorted m) =? 2)%nat)
       (edges_sorted m).

(** [mesh.is_winding_consistent]: the two faces on an edge traverse it in
    opposite directions. *)
Definition is_winding_consistent (m : Trimesh) : bool :=
  negb (is_empty m)
  && forallb
       (fun e : edge =>
          implb (count_edge (sort_edge e) (edges_sorted m) =? 2)%nat
                ((fst e =? snd e)%nat
                 || (count_edge (snd e, fst e) (edges m) =? 1)%nat))
       (edges m).

(** [mesh.is_volume]: watertight, consistently wound, with a finite centre
    of mass and a positive volume (outward-facing normals); over the real
    numbers the centre of mass of a mesh of positive volume is finite. *)
Definition is_volume (m : Trimesh) : bool :=
  is_watertight m && is_winding_consistent m
  && (if Rlt_dec 0 (volume m) then true else false).

(** [mesh.remove_duplicate_faces()]: a face is kept the first time its set
    of vertex indices occurs. *)
Definition sort3 (f : face) : face :=
  let '(a, b, c) := f in
  let lo := Nat.min a (Nat.min b c) in
  let hi := Nat.max a (Nat.max b c) in
  (lo, (a + b + c - lo - hi)%nat, hi).

Definition face_eqb (f g : face) : bool :=
  let '(a, b, c) := f in
  let '(a', b', c') := g in
  (a =? a')%nat && (b =? b')%nat && (c =? c')%nat.

Fixpoint unique_faces (seen : list face) (fs : list face) : list face :=
  match fs with
  | [] => []
  | f :: fs' =>
      if existsb (face_eqb (sort3 f)) seen then unique_faces seen fs'
      else f :: unique_faces (sort3 f :: seen) fs'
  end.

Definition remove_duplicate_faces (m : Trimesh) : Trimesh :=
  {| vertices := vertices m;
     faces := unique_faces [] (faces m);
     vertex_normals := vertex_normals m |}.

(** [mesh.remove_unreferenced_vertices()]: the referenced vertices are kept,
    in order, and the faces are renumbered. *)
Definition new_index (mask : list bool) (i : nat) : nat :=
  length (filter (fun b : bool => b) (firstn i mask)).

Definition remove_unreferenced_vertices (m : Trimesh) : Trimesh :=
  let mask := referenced_vertices m in
  {| vertices := select (vertices m) mask;
     faces := map (fun f : face =>
                     let '(a, b, c) := f in
                     (new_index mask a, new_index mask b, new_index mask c))
                  (faces m);
     vertex_normals :=
       match vertex_normals m with
       | Some ns => Some (select ns mask)
       | None => None
       end |}.

(** [mesh.invert()]: the winding of every face is reversed and the vertex
    normals are negated. *)
Definition invert (m : Trimesh) : Trimesh :=
  {| vertices := vertices m;
     faces := map (fun f : face => let '(a, b, c) := f in (c, b, a)) (faces m);
     vertex_normals :=
       match vertex_normals m with
       | Some ns => Some (map (fun n => (- vx n, - vy n, - vz n)) ns)
       | None => None
       end |}.

End trimesh.

(* ===================================================================== *)
(** * geometry/industrial.py *)
(* ===================================================================== *)

Module industrial.

(** [calculate_volume]. *)
Definition calculate_volume (mesh : trimesh.Trimesh) : result R :=
  if negb (trimesh.is_volume mesh) then Ok 0
  else Ok (trimesh.volume mesh).

(** The dictionary with keys ['x'], ['y'], ['z'] that
    [calculate_bounding_box] returns. *)
Record BoundingBox : Type := {
  x : R * R;
  y : R * R;
  z : R * R
}.

(** [calculate_bounding_box]: [mesh.bounds] is subscripted without a test,
    which raises [TypeError] when it is [None]. *)
Definition calculate_bounding_box (mesh : trimesh.Trimesh)
  : result BoundingBox :=
  match trimesh.bounds mesh with
  | None => Raise TypeError
  | Some (lo, hi) =>
      Ok {| x := (trimesh.vx lo, trimesh.vx hi);
            y := (trimesh.vy lo, trimesh.vy hi);
            z := (trimesh.vz lo, trimesh.vz hi) |}
  end.

(** The dictionary with keys ['width'], ['height'], ['depth']. *)
Record Dimensions : Type := {
  width : R;
  height : R;
  depth : R
}.

(** [calculate_dimensions]. *)
Definition calculate_dimensions (mesh : trimesh.Trimesh) : result Dimensions :=
  bbox <- calculate_bounding_box mesh ;;
  Ok {| width := snd (x bbox) - fst (x bbox);
        height := snd (y bbox) - fst (y bbox);
        depth := snd (z bbox) - fst (z bbox) |}.

(** The dictionary [analyze_geometry] returns. *)
Record Analysis : Type := {
  volume : R;
  surface_area : R;
  bbox : BoundingBox;
  dimensions : Dimensions;
  is_watertight : bool;
  is_volume : bool;
  vertex_count : nat;
  face_count : nat;
  edge_count : nat
}.

(** [analyze_geometry]. *)
Definition analyze_geometry (mesh : trimesh.Trimesh) : result Analysis :=
  bbox_ <- calculate_bounding_box mesh ;;
  dimensions_ <- calculate_dimensions mesh ;;
  volume_ <- calculate_volume mesh ;;
  Ok {| volume := volume_;
        surface_area := trimesh.area mesh;
        bbox := bbox_;
        dimensions := dimensions_;
        is_watertight := trimesh.is_watertight mesh;
        is_volume := trimesh.is_volume mesh;
        vertex_count := length (trimesh.vertices mesh);
        face_count := length (trimesh.faces mesh);
        edge_count := length (trimesh.edges mesh) |}.

(** The dictionary [estimate_material_usage] returns; its key ['volume'] is
    the field [usage_volume]. *)
Record MaterialUsage : Type := {
  usage_volume : R;
  material_volume : R;
  mass : R;
  density : R
}.

(** [estimate_material_usage]; [wall_thickness] is [None] or a number. *)
Definition estimate_material_usage (mesh : trimesh.Trimesh)
  (material_density : R) (wall_thickness : option R) : result MaterialUsage :=
  volume_mm3 <- calculate_volume mesh ;;
  let material_volume_mm3 :=
    match wall_thickness with
    | Some w =>
        if Rlt_dec 0 w
        then (let surface_area_mm2 := trimesh.area mesh in
              surface_area_mm2 * w)
        else volume_mm3
    | None => volume_mm3
    end in
  let volume_cm3 := material_volume_mm3 / 1000 in
  let mass_g := volume_cm3 * material_density in
  Ok {| usage_volume := volume_mm3;
        material_volume := material_volume_mm3;
        mass := mass_g;
        density := material_density |}.

(** The default arguments of [estimate_material_usage]. *)
Definition default_material_density : R := 1.
Definition default_wall_thickness : option R := None.

End industrial.

(* ===================================================================== *)
(** * scikit-image: [skimage.measure.marching_cubes] *)
(* ===================================================================== *)

Module skimage.

(** The keyword arguments of a call. *)
Record kwargs : Type := {
  level : option R;
  spacing : option (R * R * R);
  origin : option (R * R * R)
}.

(** What [marching_cubes] returns: vertices, faces, normals, values. *)
Definition surface : Type :=
  (list trimesh.vec3 * list trimesh.face * list trimesh.vec3 * list R)%type.

Section measure.

(** The triangulation proper (Lewiner's case tables), on a volume of shape
    [(n, n, n)] given in row-major order, at a level and a spacing. *)
Variable lewiner : nat -> list R -> R -> R * R * R -> surface.

(** [marching_cubes(volume, level=None, *, spacing=(1., 1., 1.),
    gradient_direction='descent', step_size=1, allow_degenerate=True,
    method='lewiner', mask=None)] up to its argument checks: the signature
    has no parameter [origin], so a call that passes one raises [TypeError];
    the volume must be a three-dimensional array of at least 2x2x2 samples,
    and the level must lie within the range of the volume data, otherwise
    [ValueError] is raised. *)
Definition marching_cubes (n : nat) (volume : np.ndarray) (kw : kwargs)
  : result surface :=
  match origin kw with
  | Some _ => Raise TypeError
  | None =>
      match volume with
      | np.Scalar _ => Raise ValueError
      | np.Arr [] => Raise ValueError
      | np.Arr (v :: vs) =>
          if negb (Nat.eqb (length (v :: vs)) (n * n * n)) then Raise ValueError
          else if (n <? 2)%nat then Raise ValueError
          else
            let lo := np.amin v vs in
            let hi := np.amax v vs in
            let lvl := match level kw with
                       | Some l => l
                       | None => (lo + hi) / 2
                       end in
            if Rlt_dec lvl lo then Raise ValueError
            else if Rlt_dec hi lvl then Raise ValueError
            else Ok (lewiner n (v :: vs) lvl
                       (match spacing kw with
                        | Some s => s
                        | None => (1, 1, 1)
                        end))
      end
  end.

End measure.

End skimage.

(* ===================================================================== *)
(** * geometry/marching_cubes.py *)
(* ===================================================================== *)

Module marching_cubes.

(** ** Library entry points *)

(** The installed libraries as [generate_mesh] sees them.  scikit-image is
    optional: [None] makes [from skimage import measure] raise
    [ImportError]. *)
Record Libs : Type := {
  (* skimage.measure.marching_cubes, on a volume of grid shape (n, n, n) *)
  skimage_measure :
    option (nat -> np.ndarray -> skimage.kwargs -> result skimage.surface);
  (* trimesh.Trimesh(vertices=, faces=, vertex_normals=) *)
  Trimesh_init :
    list trimesh.vec3 -> list trimesh.face -> list trimesh.vec3 ->
    result trimesh.Trimesh;
  (* scipy.spatial.Delaunay(points).simplices *)
  Delaunay : list trimesh.vec3 -> result (list (list nat));
  (* trimesh.Trimesh(vertices=points, faces=simplices) *)
  Trimesh_of_simplices :
    list trimesh.vec3 -> list (list nat) -> result trimesh.Trimesh;
  (* mesh[flag] *)
  Trimesh_getitem : trimesh.Trimesh -> bool -> result trimesh.Trimesh
}.

Definition with_skimage
  (mc : nat -> np.ndarray -> skimage.kwargs -> result skimage.surface)
  (libs : Libs) : Libs :=
  {| skimage_measure := Some mc;
     Trimesh_init := Trimesh_init libs;
     Delaunay := Delaunay libs;
     Trimesh_of_simplices := Trimesh_of_simplices libs;
     Trimesh_getitem := Trimesh_getitem libs |}.

Definition without_skimage (libs : Libs) : Libs :=
  {| skimage_measure := None;
     Trimesh_init := Trimesh_init libs;
     Delaunay := Delaunay libs;
     Trimesh_of_simplices := Trimesh_of_simplices libs;
     Trimesh_getitem := Trimesh_getitem libs |}.

(** ** Runs that record the sampling of the field *)

(** One event per evaluation [field(X, Y, Z)], with the arrays passed. *)
Inductive event : Type :=
| Sampled (X Y Z : list R).

Definition trace : Type := list event.

(** A computation: from the events so far to an outcome and the events
    afterwards. *)
Definition M (A : Type) : Type := trace -> result A * trace.

Definition ret {A : Type} (a : A) : M A := fun t => (Ok a, t).

Definition raise {A : Type} (e : exn) : M A := fun t => (Raise e, t).

Definition mbind {A B : Type} (m : M A) (k : A -> M B) : M B :=
  fun t =>
    match m t with
    | (Ok a, t') => k a t'
    | (Raise e, t') => (Raise e, t')
    end.

Definition lift {A : Type} (r : result A) : M A := fun t => (r, t).

(** [try: body / except ImportError: handler]. *)
Definition try_except_ImportError {A : Type} (body handler : M A) : M A :=
  fun t =>
    match body t with
    | (Raise ImportError, t') => handler t'
    | outcome => outcome
    end.

(** [try: body / except: handler] (every exception is caught). *)
Definition try_except {A : Type} (body : result A) (handler : A) : A :=
  match body with
  | Ok a => a
  | Raise _ => handler
  end.

Definition run {A : Type} (m : M A) (t : trace) : result A * trace := m t.

Declare Scope run_scope.
Delimit Scope run_scope with run.
Notation "x <~ m ;; k" := (mbind m (fun x => k))
  (at level 61, m at next level, right associativity) : run_scope.
Notation "' pat <~ m ;; k" := (mbind m (fun x => match x with pat => k end))
  (at level 61, pat pattern, m at next level, right associativity) : run_scope.
Open Scope run_scope.

(** [field(X, Y, Z)] on grid arrays. *)
Definition sample {T : Type} `{Field T} (field : T) (X Y Z : list R)
  : M np.ndarray :=
  fun t => (call field (np.Arr X) (np.Arr Y) (np.Arr Z), t ++ [Sampled X Y Z]).

(** ** The bounding box *)

Definition Bounds : Type := ((R * R) * (R * R) * (R * R))%type.

Definition default_bounds : Bounds := ((-5, 5), (-5, 5), (-5, 5)).

Definition default_resolution : Z := 50.
Definition default_iso_value : R := 0.

(** [a / d] for a float [a] and an int [d]. *)
Definition truediv (a : R) (d : Z) : result R :=
  if (d =? 0)%Z then Raise ZeroDivisionError else Ok (a / IZR d).

Fixpoint stack3 (xs ys zs : list R) : list trimesh.vec3 :=
  match xs, ys, zs with
  | a :: xs', b :: ys', c :: zs' => (a, b, c) :: stack3 xs' ys' zs'
  | _, _, _ => []
  end.

(** [_marching_cubes_simple]. *)
Definition _marching_cubes_simple {T : Type} `{Field T} (libs : Libs)
  (field : T) (resolution : Z) (iso_value : R) (bounds : Bounds)
  : M trimesh.Trimesh :=
  let '((x_min, x_max), (y_min, y_max), (z_min, z_max)) := bounds in
  x <~ lift (np.linspace x_min x_max resolution) ;;
  y <~ lift (np.linspace y_min y_max resolution) ;;
  z <~ lift (np.linspace z_min z_max resolution) ;;
  let '(X, Y, Z) := np.meshgrid x y z in
  field_values <~ sample field X Y Z ;;
  shifted <~ lift (np.subtract field_values (np.Scalar iso_value)) ;;
  let mask := np.less (np.abs shifted) (1 / 10 * np.std field_values) in
  match mask with
  | np.MaskScalar _ =>
      (* X[mask] has a leading axis of length 0 or 1: fewer than 4 points *)
      ret trimesh.Trimesh_init_empty
  | np.MaskArr bs =>
      xs <~ lift (np.getitem X bs) ;;
      ys <~ lift (np.getitem Y bs) ;;
      zs <~ lift (np.getitem Z bs) ;;
      let points := stack3 xs ys zs in
      if (length points <? 4)%nat then ret trimesh.Trimesh_init_empty
      else
        ret (try_except
               (simplices <- Delaunay libs points ;;
                mesh <- Trimesh_of_simplices libs points simplices ;;
                Trimesh_getitem libs mesh
                  (np.ltb (/ 10 ^ 10) (trimesh.area mesh)))
               trimesh.Trimesh_init_empty)
  end.

(** [from skimage import measure]. *)
Definition import_skimage_measure (libs : Libs)
  : M (nat -> np.ndarray -> skimage.kwargs -> result skimage.surface) :=
  match skimage_measure libs with
  | Some mc => ret mc
  | None => raise ImportError
  end.

(** [generate_mesh]. *)
Definition generate_mesh {T : Type} `{Field T} (libs : Libs) (field : T)
  (resolution : Z) (iso_value : R) (bounds : option Bounds)
  : M trimesh.Trimesh :=
  let bounds := match bounds with
                | None => ((-5, 5), (-5, 5), (-5, 5))
                | Some b => b
                end in
  let '((x_min, x_max), (y_min, y_max), (z_min, z_max)) := bounds in
  x <~ lift (np.linspace x_min x_max resolution) ;;
  y <~ lift (np.linspace y_min y_max resolution) ;;
  z <~ lift (np.linspace z_min z_max resolution) ;;
  let '(X, Y, Z) := np.meshgrid x y z in
  field_values <~ sample field X Y Z ;;
  mesh <~ try_except_ImportError
            (measure <~ import_skimage_measure libs ;;
             sx <~ lift (truediv (x_max - x_min) (resolution - 1)) ;;
             sy <~ lift (truediv (y_max - y_min) (resolution - 1)) ;;
             sz <~ lift (truediv (z_max - z_min) (resolution - 1)) ;;
             '(vertices, faces, normals, values) <~
               lift (measure (Z.to_nat resolution) field_values
                       {| skimage.level := Some iso_value;
                          skimage.spacing := Some (sx, sy, sz);
                          skimage.origin := Some (x_min, y_min, z_min) |}) ;;
             lift (Trimesh_init libs vertices faces normals))
            (_marching_cubes_simple libs field resolution iso_value bounds) ;;
  let mesh := trimesh.remove_duplicate_faces mesh in
  let mesh := trimesh.remove_unreferenced_vertices mesh in
  ret mesh.

(** ** Notions used to state properties of runs *)

(** The box that is sampled. *)
Definition bounds_or_default (bounds : option Bounds) : Bounds :=
  match bounds with
  | None => default_bounds
  | Some b => b
  end.

(** The coordinate grids [X, Y, Z] of a box at a resolution, as both
    functions build them. *)
Definition grid (bounds : Bounds) (resolution : Z)
  : result (list R * list R * list R) :=
  let '((x_min, x_max), (y_min, y_max), (z_min, z_max)) := bounds in
  x <- np.linspace x_min x_max resolution ;;
  y <- np.linspace y_min y_max resolution ;;
  z <- np.linspace z_min z_max resolution ;;
  Ok (np.meshgrid x y z).

(** A computation has the outcome [r] and records the events [evs],
    whatever was recorded before it started. *)
Definition uniform {A : Type} (m : M A) (r : result A) (evs : trace) : Prop :=
  forall t : trace, run m t = (r, t ++ evs).

(** Some axis of the box has [min >= max]. *)
Definition degenerate (b : Bounds) : Prop :=
  let '((x_min, x_max), (y_min, y_max), (z_min, z_max)) := b in
  x_min >= x_max \/ y_min >= y_max \/ z_min >= z_max.

End marching_cubes.

(* ===================================================================== *)
(** * Scenarios: the fields and meshes the statements are tried on *)
(* ===================================================================== *)

Module scenarios.

(** The coordinate transform of the callable form, on a scalar or element by
    element on an array. *)
Definition affine (scale offset : R) (a : np.ndarray) : np.ndarray :=
  np.ufunc1 (fun v => v * scale + offset) a.

(** A field whose value is the same everywhere: [evaluate] returns
    [np.full_like(x, value)]. *)
Record ConstantField : Type := {
  ConstantField_base : ScalarField;
  ConstantField_value : R
}.

Definition ConstantField_evaluate (self : ConstantField)
  (x y z : np.ndarray) : result np.ndarray :=
  Ok (np.ufunc1 (fun _ => ConstantField_value self) x).

#[export] Instance ConstantField_Field : Field ConstantField := {
  base := ConstantField_base;
  evaluate := ConstantField_evaluate
}.

Definition ConstantField_init (value : R) : ConstantField :=
  {| ConstantField_base :=
       {| scale := default_scale; offset := default_offset |};
     ConstantField_value := value |}.

(** [trimesh.creation.box(extents)]: the unit cube centred at the origin,
    scaled by the extents, with its twelve outward-facing triangles. *)
Definition box (ex ey ez : R) : trimesh.Trimesh :=
  {| trimesh.vertices :=
       map (fun v : trimesh.vec3 =>
              ((trimesh.vx v - 1 / 2) * ex,
               (trimesh.vy v - 1 / 2) * ey,
               (trimesh.vz v - 1 / 2) * ez))
           [(0, 0, 0); (0, 0, 1); (0, 1, 0); (0, 1, 1);
            (1, 0, 0); (1, 0, 1); (1, 1, 0); (1, 1, 1)];
     trimesh.faces :=
       [(1, 3, 0); (4, 1, 0); (0, 3, 2); (2, 4, 0); (1, 7, 3); (5, 1, 4);
        (5, 7, 1); (3, 7, 2); (6, 4, 2); (2, 7, 6); (6, 5, 4); (7, 5, 6)]%nat;
     trimesh.vertex_normals := None |}.

(** One triangle in the plane [z = 0]: an open surface. *)
Definition single_triangle : trimesh.Trimesh :=
  {| trimesh.vertices := [(0, 0, 0); (1, 0, 0); (0, 1, 0)];
     trimesh.faces := [(0, 1, 2)%nat];
     trimesh.vertex_normals := None |}.

(** An installation to try statements on.  scikit-image is absent; the
    fall-back operations are the plainest ones: a triangulation that finds
    no simplex, meshes built from the arrays as they are, and a mesh that
    cannot be subscripted. *)
Definition plain_libs : marching_cubes.Libs :=
  {| marching_cubes.skimage_measure := None;
     marching_cubes.Trimesh_init :=
       fun vs fs ns =>
         Ok {| trimesh.vertices := vs;
               trimesh.faces := fs;
               trimesh.vertex_normals := Some ns |};
     marching_cubes.Delaunay := fun _ => Ok [];
     marching_cubes.Trimesh_of_simplices :=
       fun pts _ =>
         Ok {| trimesh.vertices := pts;
               trimesh.faces := [];
               trimesh.vertex_normals := None |};
     marching_cubes.Trimesh_getitem := fun _ _ => Raise TypeError |}.

(** A triangulation that finds no surface. *)
Definition no_surface (n : nat) (volume : list R) (level : R)
  (spacing : R * R * R) : skimage.surface :=
  ([], [], [], []).

(** A scikit-image whose [marching_cubes] accepts every keyword and finds
    one triangle. *)
Definition one_triangle (n : nat) (volume : np.ndarray)
  (kw : skimage.kwargs) : result skimage.surface :=
  Ok ([(0, 0, 0); (1, 0, 0); (0, 1, 0)], [(0, 1, 2)%nat], [], []).

Definition px (p : R * R * R) : R := fst (fst p).
Definition py (p : R * R * R) : R := snd (fst p).
Definition pz (p : R * R * R) : R := snd p.

End scenarios.

Import scenarios.

(* ===================================================================== *)
(** * The value of a field on one point *)
(* ===================================================================== *)

Module pointwise.

(** The point at which the callable form evaluates. *)
Definition transformed (b : ScalarField) (p : R * R * R) : R * R * R :=
  (px p * scale b + offset_0 (offset b),
   py p * scale b + offset_1 (offset b),
   pz p * scale b + offset_2 (offset b)).

(** The thickness rule on one value. *)
Definition shell (t f : R) : R := if Rlt_dec 0 t then Rabs f - t else f.

(** What calling a Gyroid, or a SchwarzP field, gives on one point. *)
Definition gyroid_value (b : ScalarField) (t : R) (p : R * R * R) : R :=
  let q := transformed b p in
  shell t (gyroid_formula (px q) (py q) (pz q)).

Definition schwarz_p_value (b : ScalarField) (t : R) (p : R * R * R) : R :=
  let q := transformed b p in
  shell t (schwarz_p_formula (px q) (py q) (pz q)).

End pointwise.

Import pointwise.

(* ===================================================================== *)
(** * Points and boxes *)
(* ===================================================================== *)

Module enclosure.

(** [a] is below [b] in every coordinate. *)
Definition below (a b : trimesh.vec3) : Prop :=
  trimesh.vx a <= trimesh.vx b /\ trimesh.vy a <= trimesh.vy b
  /\ trimesh.vz a <= trimesh.vz b.

(** A point lies in a bounding box. *)
Definition inside (bb : industrial.BoundingBox) (v : trimesh.vec3) : Prop :=
  fst (industrial.x bb) <= trimesh.vx v <= snd (industrial.x bb)
  /\ fst (industrial.y bb) <= trimesh.vy v <= snd (industrial.y bb)
  /\ fst (industrial.z bb) <= trimesh.vz v <= snd (industrial.z bb).

End enclosure.

Import enclosure.

(* ===================================================================== *)
(** * examples/basic_tpms.py and app/main.py: the callers *)
(* ===================================================================== *)

Module basic_tpms.

(** [generate_gyroid_example]: generate, analyse, export; the printed lines
    are left out, [export] stands for [mesh.export(output_file)]. *)
Definition generate_gyroid_example (libs : marching_cubes.Libs)
  (export : trimesh.Trimesh -> result unit)
  : marching_cubes.M trimesh.Trimesh :=
  marching_cubes.mbind
    (marching_cubes.generate_mesh libs (Gyroid_init 10 0) 50 0
       (Some ((-5, 5), (-5, 5), (-5, 5))))
    (fun mesh =>
       marching_cubes.mbind
         (marching_cubes.lift (industrial.analyze_geometry mesh))
         (fun analysis =>
            marching_cubes.mbind (marching_cubes.lift (export mesh))
              (fun _ => marching_cubes.ret mesh))).

End basic_tpms.

Module app.

(** The options of the select box. *)
Inductive primitive : Type :=
| Gyroid_TPMS
| Schwarz_P_TPMS.

(** The values of the side-bar controls in one run of the script. *)
Record controls : Type := {
  primitive_type : primitive;
  scale : R;
  thickness : R;
  resolution : Z;
  iso_value : R;
  bounds_x : R * R;
  bounds_y : R * R;
  bounds_z : R * R;
  generate_button : bool
}.

(** [st.session_state]: the keys ['mesh'] and ['field'], each absent
    ([None]) or set; ['mesh'] is set to [None] or to a mesh. *)
Record session_state : Type := {
  mesh : option (option trimesh.Trimesh);
  field : option primitive
}.

(** What the generation step shows. *)
Inductive message : Type :=
| success
| error_empty
| error_generating (e : exn).

(** After [generate_mesh] returned or raised (lines 127-144). *)
Definition store (c : controls) (s : session_state)
  (outcome : result trimesh.Trimesh) : session_state * list message :=
  match outcome with
  | Ok m =>
      if (0 <? length (trimesh.vertices m))%nat
      then ({| mesh := Some (Some m); field := Some (primitive_type c) |},
            [success])
      else ({| mesh := Some None; field := field s |}, [error_empty])
  | Raise e =>
      ({| mesh := Some None; field := field s |}, [error_generating e])
  end.

(** The generation step of one run of the script (lines 118-144). *)
Definition generate (libs : marching_cubes.Libs) (c : controls)
  (s : session_state) (t : marching_cubes.trace)
  : session_state * list message * marching_cubes.trace :=
  if generate_button c
     || match mesh s with None => true | Some _ => false end
  then
    let bounds := (bounds_x c, bounds_y c, bounds_z c) in
    let '(outcome, t') :=
      match primitive_type c with
      | Gyroid_TPMS =>
          marching_cubes.run
            (marching_cubes.generate_mesh libs
               (Gyroid_init (scale c) (thickness c))
               (resolution c) (iso_value c) (Some bounds)) t
      | Schwarz_P_TPMS =>
          marching_cubes.run
            (marching_cubes.generate_mesh libs
               (SchwarzP_init (scale c) (thickness c))
               (resolution c) (iso_value c) (Some bounds)) t
      end in
    (store c s outcome, t')
  else (s, [], t).

(** The analysis column (lines 184-186): the mesh in the session, when there
    is one, is analysed. *)
Definition analysis (s : session_state) : result (option industrial.Analysis) :=
  match mesh s with
  | Some (Some m) => a <- industrial.analyze_geometry m ;; Ok (Some a)
  | _ => Ok None
  end.

(** The session of a first run, and the controls as they stand before the
    user touches them. *)
Definition first_run : session_state := {| mesh := None; field := None |}.

Definition default_controls : controls :=
  {| primitive_type := Gyroid_TPMS;
     scale := 10;
     thickness := 0;
     resolution := 50;
     iso_value := 0;
     bounds_x := (-5, 5);
     bounds_y := (-5, 5);
     bounds_z := (-5, 5);
     generate_button := false |}.

(** The generation step runs: the button was pressed, or the session has no
    key ['mesh'] yet. *)
Definition regenerates (c : controls) (s : session_state) : Prop :=
  generate_button c = true \/ mesh s = None.


End app.

(* ===================================================================== *)
(** * Element-wise arithmetic *)
(* ===================================================================== *)

Section Broadcasting.

Variable f : R -> R -> R.

Lemma ufunc2_scalar_r (a : np.ndarray) (s : R) :
  np.ufunc2 f a (np.Scalar s) = Ok (np.ufunc1 (fun v => f v s) a).
Proof. destruct a; reflexivity. Qed.

Lemma zip_with_map {A : Type} (g h : A -> R) (pts : list A) :
  np.zip_with f (map g pts) (map h pts) = map (fun p => f (g p) (h p)) pts.
Proof.
  induction pts as [|p pts IH]; simpl; [reflexivity|].
  now rewrite IH.
Qed.

Lemma ufunc2_pointwise {A : Type} (g h : A -> R) (pts : list A) :
  np.ufunc2 f (np.Arr (map g pts)) (np.Arr (map h pts))
  = Ok (np.Arr (map (fun p => f (g p) (h p)) pts)).
Proof.
  unfold np.ufunc2.
  rewrite !length_map, Nat.eqb_refl.
  now rewrite zip_with_map.
Qed.

End Broadcasting.

Lemma ufunc1_pointwise {A : Type} (u : R -> R) (g : A -> R) (pts : list A) :
  np.ufunc1 u (np.Arr (map g pts)) = np.Arr (map (fun p => u (g p)) pts).
Proof. simpl. now rewrite map_map. Qed.

(* ===================================================================== *)
(** * Scalar fields *)
(* ===================================================================== *)

Section CallableForm.

Context {T : Type} `{Field T}.

(** The callable form, unfolded: the three coordinates are transformed and
    passed to [evaluate]. *)
Lemma call_affine (self : T) (x y z : np.ndarray) :
  call self x y z
  = evaluate self
      (affine (scale (base self)) (offset_0 (offset (base self))) x)
      (affine (scale (base self)) (offset_1 (offset (base self))) y)
      (affine (scale (base self)) (offset_2 (offset (base self))) z).
Proof.
  unfold call, np.multiply, np.add.
  rewrite !ufunc2_scalar_r. simpl.
  rewrite !ufunc2_scalar_r. simpl.
  unfold affine.
  destruct x, y, z; simpl; rewrite ?map_map; reflexivity.
Qed.

(** C5.  For every field with parameters [scale] and [offset], calling the
    field on [(x, y, z)] returns [evaluate] at [x*scale + offset[0]],
    [y*scale + offset[1]], [z*scale + offset[2]]: for arbitrary arguments,
    for numbers, and element by element for coordinate sequences of equal
    length. *)
Theorem call_applies_affine_transform (self : T) :
  (forall x y z : np.ndarray,
     call self x y z
     = evaluate self
         (affine (scale (base self)) (offset_0 (offset (base self))) x)
         (affine (scale (base self)) (offset_1 (offset (base self))) y)
         (affine (scale (base self)) (offset_2 (offset (base self))) z))
  /\ (forall x y z : R,
        call self (np.Scalar x) (np.Scalar y) (np.Scalar z)
        = evaluate self
            (np.Scalar (x * scale (base self) + offset_0 (offset (base self))))
            (np.Scalar (y * scale (base self) + offset_1 (offset (base self))))
            (np.Scalar (z * scale (base self) + offset_2 (offset (base self)))))
  /\ (forall pts : list (R * R * R),
        call self (np.Arr (map px pts)) (np.Arr (map py pts))
          (np.Arr (map pz pts))
        = evaluate self
            (np.Arr (map (fun p => px p * scale (base self)
                                   + offset_0 (offset (base self))) pts))
            (np.Arr (map (fun p => py p * scale (base self)
                                   + offset_1 (offset (base self))) pts))
            (np.Arr (map (fun p => pz p * scale (base self)
                                   + offset_2 (offset (base self))) pts))).
Proof.
  split; [|split].
  - apply call_affine.
  - intros x y z. apply call_affine.
  - intros pts. rewrite call_affine. unfold affine.
    rewrite !ufunc1_pointwise. reflexivity.
Qed.

End CallableForm.

(** The unit tests of [tests/test_fields.py] on the callable form. *)

Example test_basic_evaluation :
  call (TestScalarField_init default_scale default_offset)
       (np.Scalar 1) (np.Scalar 2) (np.Scalar 3)
  = Ok (np.Scalar 6).
Proof.
  rewrite call_affine. cbn. unfold default_scale.
  do 2 f_equal. lra.
Qed.

Example test_array_evaluation :
  call (TestScalarField_init default_scale default_offset)
       (np.Arr [1; 2]) (np.Arr [1; 2]) (np.Arr [1; 2])
  = Ok (np.Arr [3; 6]).
Proof.
  rewrite call_affine. cbn. unfold default_scale.
  do 2 f_equal. repeat (f_equal; try lra).
Qed.

Example test_scale_parameter :
  call (TestScalarField_init 2 default_offset)
       (np.Scalar 1) (np.Scalar 1) (np.Scalar 1)
  = Ok (np.Scalar 6).
Proof.
  rewrite call_affine. cbn. unfold default_scale.
  do 2 f_equal. lra.
Qed.

Example test_offset_parameter :
  call (TestScalarField_init default_scale (1, 1, 1))
       (np.Scalar 0) (np.Scalar 0) (np.Scalar 0)
  = Ok (np.Scalar 3).
Proof.
  rewrite call_affine. cbn. unfold default_scale.
  do 2 f_equal. lra.
Qed.

(** Arrays of different lengths (other than length one) cannot be combined:
    the field raises. *)
Example call_unequal_lengths :
  call (TestScalarField_init default_scale default_offset)
       (np.Arr [1; 2]) (np.Arr [1; 2; 3]) (np.Arr [1; 2])
  = Raise ValueError.
Proof. rewrite call_affine. reflexivity. Qed.

(* ===================================================================== *)
(** * Triply periodic minimal surfaces *)
(* ===================================================================== *)

Section Tpms.

Variable b : ScalarField.

Lemma Gyroid_evaluate_scalar (t x y z : R) :
  Gyroid_evaluate {| Gyroid_base := b; Gyroid_thickness := t |}
    (np.Scalar x) (np.Scalar y) (np.Scalar z)
  = Ok (np.Scalar (if Rlt_dec 0 t then Rabs (gyroid_formula x y z) - t
                   else gyroid_formula x y z)).
Proof.
  unfold Gyroid_evaluate, gyroid_formula. simpl.
  destruct (Rlt_dec 0 t); reflexivity.
Qed.

Lemma Gyroid_evaluate_points (t : R) (pts : list (R * R * R)) :
  Gyroid_evaluate {| Gyroid_base := b; Gyroid_thickness := t |}
    (np.Arr (map px pts)) (np.Arr (map py pts)) (np.Arr (map pz pts))
  = Ok (np.Arr (map (fun p =>
                       if Rlt_dec 0 t
                       then Rabs (gyroid_formula (px p) (py p) (pz p)) - t
                       else gyroid_formula (px p) (py p) (pz p)) pts)).
Proof.
  unfold Gyroid_evaluate, np.sin, np.cos, np.multiply, np.add, np.subtract,
    np.abs.
  rewrite !ufunc1_pointwise.
  repeat (rewrite ufunc2_pointwise; cbn [Py.bind]).
  cbn [Gyroid_thickness SchwarzP_thickness].
  destruct (Rlt_dec 0 t) as [Ht|Ht].
  - rewrite ufunc1_pointwise, ufunc2_scalar_r. cbn [np.ufunc1].
    rewrite map_map. reflexivity.
  - reflexivity.
Qed.

Lemma SchwarzP_evaluate_scalar (t x y z : R) :
  SchwarzP_evaluate {| SchwarzP_base := b; SchwarzP_thickness := t |}
    (np.Scalar x) (np.Scalar y) (np.Scalar z)
  = Ok (np.Scalar (if Rlt_dec 0 t then Rabs (schwarz_p_formula x y z) - t
                   else schwarz_p_formula x y z)).
Proof.
  unfold SchwarzP_evaluate, schwarz_p_formula. simpl.
  destruct (Rlt_dec 0 t); reflexivity.
Qed.

Lemma SchwarzP_evaluate_points (t : R) (pts : list (R * R * R)) :
  SchwarzP_evaluate {| SchwarzP_base := b; SchwarzP_thickness := t |}
    (np.Arr (map px pts)) (np.Arr (map py pts)) (np.Arr (map pz pts))
  = Ok (np.Arr (map (fun p =>
                       if Rlt_dec 0 t
                       then Rabs (schwarz_p_formula (px p) (py p) (pz p)) - t
                       else schwarz_p_formula (px p) (py p) (pz p)) pts)).
Proof.
  unfold SchwarzP_evaluate, np.cos, np.add, np.subtract, np.abs.
  rewrite !ufunc1_pointwise.
  repeat (rewrite ufunc2_pointwise; cbn [Py.bind]).
  cbn [Gyroid_thickness SchwarzP_thickness].
  destruct (Rlt_dec 0 t) as [Ht|Ht].
  - rewrite ufunc1_pointwise, ufunc2_scalar_r. cbn [np.ufunc1].
    rewrite map_map. reflexivity.
  - reflexivity.
Qed.

End Tpms.

(** C6.  With thickness 0, [Gyroid.evaluate] returns
    [sin(x)cos(y) + sin(y)cos(z) + sin(z)cos(x)] and [SchwarzP.evaluate]
    returns [cos(x) + cos(y) + cos(z)], on numbers and element by element on
    coordinate sequences of equal length; SchwarzP with scale 1 and
    thickness 0 yields 3 at the origin, and Gyroid with scale 1 yields a
    value within [1e-10] of 0 there, evaluated directly or called. *)
Theorem tpms_base_formulas :
  (forall (b : ScalarField) (x y z : R),
     evaluate {| Gyroid_base := b; Gyroid_thickness := 0 |}
       (np.Scalar x) (np.Scalar y) (np.Scalar z)
     = Ok (np.Scalar (sin x * cos y + sin y * cos z + sin z * cos x)))
  /\ (forall (b : ScalarField) (pts : list (R * R * R)),
        evaluate {| Gyroid_base := b; Gyroid_thickness := 0 |}
          (np.Arr (map px pts)) (np.Arr (map py pts)) (np.Arr (map pz pts))
        = Ok (np.Arr (map (fun p => sin (px p) * cos (py p)
                                    + sin (py p) * cos (pz p)
                                    + sin (pz p) * cos (px p)) pts)))
  /\ (forall (b : ScalarField) (x y z : R),
        evaluate {| SchwarzP_base := b; SchwarzP_thickness := 0 |}
          (np.Scalar x) (np.Scalar y) (np.Scalar z)
        = Ok (np.Scalar (cos x + cos y + cos z)))
  /\ (forall (b : ScalarField) (pts : list (R * R * R)),
        evaluate {| SchwarzP_base := b; SchwarzP_thickness := 0 |}
          (np.Arr (map px pts)) (np.Arr (map py pts)) (np.Arr (map pz pts))
        = Ok (np.Arr (map (fun p => cos (px p) + cos (py p) + cos (pz p))
                          pts)))
  /\ evaluate (SchwarzP_init 1 0) (np.Scalar 0) (np.Scalar 0) (np.Scalar 0)
     = Ok (np.Scalar 3)
  /\ call (SchwarzP_init 1 0) (np.Scalar 0) (np.Scalar 0) (np.Scalar 0)
     = Ok (np.Scalar 3)
  /\ (exists v : R,
        evaluate (Gyroid_init 1 0) (np.Scalar 0) (np.Scalar 0) (np.Scalar 0)
        = Ok (np.Scalar v)
        /\ call (Gyroid_init 1 0) (np.Scalar 0) (np.Scalar 0) (np.Scalar 0)
           = Ok (np.Scalar v)
        /\ Rabs (v - 0) < / 10 ^ 10).
Proof.
  assert (H0 : forall u v : R, (if Rlt_dec 0 0 then u else v) = v).
  { intros u v. destruct (Rlt_dec 0 0); [lra | reflexivity]. }
  repeat split.
  - intros b x y z. cbn [evaluate Gyroid_Field].
    rewrite Gyroid_evaluate_scalar, H0. reflexivity.
  - intros b pts. cbn [evaluate Gyroid_Field].
    rewrite Gyroid_evaluate_points. do 2 f_equal.
    apply map_ext. intros p. apply H0.
  - intros b x y z. cbn [evaluate SchwarzP_Field].
    rewrite SchwarzP_evaluate_scalar, H0. reflexivity.
  - intros b pts. cbn [evaluate SchwarzP_Field].
    rewrite SchwarzP_evaluate_points. do 2 f_equal.
    apply map_ext. intros p. apply H0.
  - cbn [evaluate SchwarzP_Field]. unfold SchwarzP_init.
    rewrite SchwarzP_evaluate_scalar, H0. unfold schwarz_p_formula.
    rewrite cos_0. do 2 f_equal. lra.
  - rewrite call_affine.
    cbn [evaluate SchwarzP_Field affine np.ufunc1 base SchwarzP_init
         SchwarzP_base scale offset default_offset offset_0 offset_1 offset_2
         fst snd].
    unfold SchwarzP_init.
    rewrite SchwarzP_evaluate_scalar, H0. unfold schwarz_p_formula.
    replace (0 * 1 + 0) with 0 by lra.
    rewrite cos_0. do 2 f_equal. lra.
  - exists 0. repeat split.
    + cbn [evaluate Gyroid_Field]. unfold Gyroid_init.
      rewrite Gyroid_evaluate_scalar, H0. unfold gyroid_formula.
      rewrite sin_0, cos_0. do 2 f_equal. lra.
    + rewrite call_affine.
      cbn [evaluate Gyroid_Field affine np.ufunc1 base Gyroid_init
           Gyroid_base scale offset default_offset offset_0 offset_1 offset_2
           fst snd].
      unfold Gyroid_init.
      rewrite Gyroid_evaluate_scalar, H0. unfold gyroid_formula.
      replace (0 * 1 + 0) with 0 by lra.
      rewrite sin_0, cos_0. do 2 f_equal. lra.
    + replace (0 - 0) with 0 by lra. rewrite Rabs_R0.
      apply Rinv_0_lt_compat, pow_lt. lra.
Qed.

(** C7.  For a Gyroid or SchwarzP field with thickness [t > 0], [evaluate]
    returns [|f(x, y, z)| - t], where [f] is the base formula of the field,
    on numbers and element by element on coordinate sequences; with
    thickness 0 the base formula is returned unchanged. *)
Theorem tpms_thickness (b : ScalarField) (t : R) (Ht : 0 < t) :
  (forall x y z : R,
     evaluate {| Gyroid_base := b; Gyroid_thickness := t |}
       (np.Scalar x) (np.Scalar y) (np.Scalar z)
     = Ok (np.Scalar
             (Rabs (sin x * cos y + sin y * cos z + sin z * cos x) - t)))
  /\ (forall pts : list (R * R * R),
        evaluate {| Gyroid_base := b; Gyroid_thickness := t |}
          (np.Arr (map px pts)) (np.Arr (map py pts)) (np.Arr (map pz pts))
        = Ok (np.Arr (map (fun p => Rabs (sin (px p) * cos (py p)
                                          + sin (py p) * cos (pz p)
                                          + sin (pz p) * cos (px p)) - t)
                          pts)))
  /\ (forall x y z : R,
        evaluate {| SchwarzP_base := b; SchwarzP_thickness := t |}
          (np.Scalar x) (np.Scalar y) (np.Scalar z)
        = Ok (np.Scalar (Rabs (cos x + cos y + cos z) - t)))
  /\ (forall pts : list (R * R * R),
        evaluate {| SchwarzP_base := b; SchwarzP_thickness := t |}
          (np.Arr (map px pts)) (np.Arr (map py pts)) (np.Arr (map pz pts))
        = Ok (np.Arr (map (fun p => Rabs (cos (px p) + cos (py p)
                                          + cos (pz p)) - t)
                          pts)))
  /\ (forall x y z : R,
        evaluate {| Gyroid_base := b; Gyroid_thickness := 0 |}
          (np.Scalar x) (np.Scalar y) (np.Scalar z)
        = Ok (np.Scalar (sin x * cos y + sin y * cos z + sin z * cos x)))
  /\ (forall x y z : R,
        evaluate {| SchwarzP_base := b; SchwarzP_thickness := 0 |}
          (np.Scalar x) (np.Scalar y) (np.Scalar z)
        = Ok (np.Scalar (cos x + cos y + cos z))).
Proof.
  assert (H1 : forall u v : R, (if Rlt_dec 0 t then u else v) = u).
  { intros u v. destruct (Rlt_dec 0 t); [reflexivity | lra]. }
  assert (H0 : forall u v : R, (if Rlt_dec 0 0 then u else v) = v).
  { intros u v. destruct (Rlt_dec 0 0); [lra | reflexivity]. }
  repeat split.
  - intros x y z. cbn [evaluate Gyroid_Field].
    rewrite Gyroid_evaluate_scalar, H1. reflexivity.
  - intros pts. cbn [evaluate Gyroid_Field].
    rewrite Gyroid_evaluate_points. do 2 f_equal.
    apply map_ext. intros p. apply H1.
  - intros x y z. cbn [evaluate SchwarzP_Field].
    rewrite SchwarzP_evaluate_scalar, H1. reflexivity.
  - intros pts. cbn [evaluate SchwarzP_Field].
    rewrite SchwarzP_evaluate_points. do 2 f_equal.
    apply map_ext. intros p. apply H1.
  - intros x y z. cbn [evaluate Gyroid_Field].
    rewrite Gyroid_evaluate_scalar, H0. reflexivity.
  - intros x y z. cbn [evaluate SchwarzP_Field].
    rewrite SchwarzP_evaluate_scalar, H0. reflexivity.
Qed.

(** The thickness rule at thickness [1/2], on the point [(1, 1, 1)]. *)
Lemma tpms_thickness_witness :
  0 < 1 / 2
  /\ evaluate (Gyroid_init 1 (1 / 2))
       (np.Scalar 1) (np.Scalar 1) (np.Scalar 1)
     = Ok (np.Scalar
             (Rabs (sin 1 * cos 1 + sin 1 * cos 1 + sin 1 * cos 1) - 1 / 2)).
Proof.
  assert (Ht : 0 < 1 / 2) by lra.
  split; [exact Ht|].
  exact (proj1 (tpms_thickness {| scale := 1; offset := default_offset |}
                  (1 / 2) Ht) 1 1 1).
Defined.

(* ===================================================================== *)
(** * Industrial analysis *)
(* ===================================================================== *)

Lemma is_volume_is_watertight (m : trimesh.Trimesh) :
  trimesh.is_volume m = true -> trimesh.is_watertight m = true.
Proof.
  unfold trimesh.is_volume. intros H.
  apply andb_prop in H. destruct H as [H _].
  apply andb_prop in H. tauto.
Qed.

Lemma is_volume_positive (m : trimesh.Trimesh) :
  trimesh.is_volume m = true -> 0 < trimesh.volume m.
Proof.
  unfold trimesh.is_volume. intros H.
  apply andb_prop in H. destruct H as [_ H].
  destruct (Rlt_dec 0 (trimesh.volume m)); [assumption | discriminate].
Qed.

(** [calculate_volume] never raises: it is the divergence-theorem volume of
    a mesh that is a volume, and 0 for any other mesh. *)
Lemma calculate_volume_spec (m : trimesh.Trimesh) :
  industrial.calculate_volume m
  = Ok (if trimesh.is_volume m then trimesh.volume m else 0).
Proof.
  unfold industrial.calculate_volume.
  destruct (trimesh.is_volume m); reflexivity.
Qed.

Lemma calculate_volume_not_watertight (m : trimesh.Trimesh) :
  trimesh.is_watertight m = false -> industrial.calculate_volume m = Ok 0.
Proof.
  intros H. rewrite calculate_volume_spec.
  destruct (trimesh.is_volume m) eqn:E; [|reflexivity].
  apply is_volume_is_watertight in E. congruence.
Qed.

(** With bounds, the analysis succeeds: every entry of the report. *)
Lemma analyze_geometry_bounded (m : trimesh.Trimesh) (lo hi : trimesh.vec3) :
  trimesh.bounds m = Some (lo, hi) ->
  industrial.analyze_geometry m
  = Ok {| industrial.volume :=
            (if trimesh.is_volume m then trimesh.volume m else 0);
          industrial.surface_area := trimesh.area m;
          industrial.bbox :=
            {| industrial.x := (trimesh.vx lo, trimesh.vx hi);
               industrial.y := (trimesh.vy lo, trimesh.vy hi);
               industrial.z := (trimesh.vz lo, trimesh.vz hi) |};
          industrial.dimensions :=
            {| industrial.width := trimesh.vx hi - trimesh.vx lo;
               industrial.height := trimesh.vy hi - trimesh.vy lo;
               industrial.depth := trimesh.vz hi - trimesh.vz lo |};
          industrial.is_watertight := trimesh.is_watertight m;
          industrial.is_volume := trimesh.is_volume m;
          industrial.vertex_count := length (trimesh.vertices m);
          industrial.face_count := length (trimesh.faces m);
          industrial.edge_count := length (trimesh.edges m) |}.
Proof.
  intros Hb.
  unfold industrial.analyze_geometry, industrial.calculate_dimensions,
    industrial.calculate_bounding_box.
  rewrite Hb, calculate_volume_spec. reflexivity.
Qed.

(** Without bounds, that is without a referenced vertex, the bounding box
    cannot be read and the analysis raises. *)
Lemma analyze_geometry_unbounded (m : trimesh.Trimesh) :
  trimesh.bounds m = None ->
  industrial.analyze_geometry m = Raise TypeError.
Proof.
  intros Hb.
  unfold industrial.analyze_geometry, industrial.calculate_bounding_box.
  rewrite Hb. reflexivity.
Qed.

(** C3.  For the empty mesh the code does not return all-zero metrics: the
    mesh has no bounds, [calculate_bounding_box] subscripts [None], and
    [calculate_bounding_box], [calculate_dimensions] and [analyze_geometry]
    raise [TypeError]; the remaining metrics of the empty mesh are zero. *)
Theorem analyze_geometry_empty_mesh :
  trimesh.bounds trimesh.Trimesh_init_empty = None
  /\ industrial.calculate_bounding_box trimesh.Trimesh_init_empty
     = Raise TypeError
  /\ industrial.calculate_dimensions trimesh.Trimesh_init_empty
     = Raise TypeError
  /\ industrial.analyze_geometry trimesh.Trimesh_init_empty
     = Raise TypeError
  /\ trimesh.area trimesh.Trimesh_init_empty = 0
  /\ length (trimesh.vertices trimesh.Trimesh_init_empty) = 0%nat
  /\ length (trimesh.faces trimesh.Trimesh_init_empty) = 0%nat
  /\ length (trimesh.edges trimesh.Trimesh_init_empty) = 0%nat.
Proof. repeat split. Qed.

(** ** The box of [tests/test_geometry.py] *)

Lemma box_well_formed (ex ey ez : R) :
  trimesh.well_formed (box ex ey ez) = true.
Proof. reflexivity. Qed.

Lemma box_is_watertight (ex ey ez : R) :
  trimesh.is_watertight (box ex ey ez) = true.
Proof. reflexivity. Qed.

Lemma box_is_winding_consistent (ex ey ez : R) :
  trimesh.is_winding_consistent (box ex ey ez) = true.
Proof. reflexivity. Qed.

Lemma box_volume (ex ey ez : R) :
  trimesh.volume (box ex ey ez) = ex * ey * ez.
Proof.
  unfold trimesh.volume, trimesh.triangles, box. cbn.
  unfold trimesh.signed_tetrahedron, trimesh.dot, trimesh.cross,
    trimesh.vx, trimesh.vy, trimesh.vz. cbn.
  field.
Qed.

Ltac rminmax :=
  repeat match goal with
    | |- context [Rmin ?a ?b] =>
        first [rewrite (Rmin_left a b) by lra | rewrite (Rmin_right a b) by lra]
    | |- context [Rmax ?a ?b] =>
        first [rewrite (Rmax_left a b) by lra | rewrite (Rmax_right a b) by lra]
    end.

Lemma box_is_volume (ex ey ez : R) :
  0 < ex * ey * ez -> trimesh.is_volume (box ex ey ez) = true.
Proof.
  intros H. unfold trimesh.is_volume.
  rewrite box_is_watertight, box_is_winding_consistent, box_volume.
  destruct (Rlt_dec 0 (ex * ey * ez)); [reflexivity | contradiction].
Qed.

(** [test_volume_calculation]: the box of extents (2, 2, 2) has volume 8. *)
Example test_volume_calculation :
  industrial.calculate_volume (box 2 2 2) = Ok 8.
Proof.
  rewrite calculate_volume_spec, box_is_volume, box_volume by lra.
  f_equal. lra.
Qed.

Lemma box_2_3_4_bounds :
  trimesh.bounds (box 2 3 4) = Some ((-1, -3 / 2, -2), (1, 3 / 2, 2)).
Proof.
  unfold trimesh.bounds, box. cbn.
  unfold trimesh.vmin, trimesh.vmax, trimesh.vx, trimesh.vy, trimesh.vz. cbn.
  rminmax.
  do 2 f_equal; repeat (f_equal; try lra).
Qed.

(** [test_dimensions_calculation]: the box of extents (2, 3, 4). *)
Example test_dimensions_calculation :
  industrial.calculate_dimensions (box 2 3 4)
  = Ok {| industrial.width := 1 - -1;
          industrial.height := 3 / 2 - -3 / 2;
          industrial.depth := 2 - -2 |}
  /\ 1 - -1 = 2 /\ 3 / 2 - -3 / 2 = 3 /\ 2 - -2 = 4.
Proof.
  unfold industrial.calculate_dimensions, industrial.calculate_bounding_box.
  rewrite box_2_3_4_bounds. cbn. repeat split; lra.
Qed.

(** The box of extents (2, 3, 4) analysed directly: volume 24, watertight,
    a volume. *)
Example analyze_geometry_box :
  exists r : industrial.Analysis,
    industrial.analyze_geometry (box 2 3 4) = Ok r
    /\ industrial.volume r = 24
    /\ industrial.is_watertight r = true
    /\ industrial.is_volume r = true
    /\ industrial.vertex_count r = 8%nat
    /\ industrial.face_count r = 12%nat
    /\ industrial.edge_count r = 36%nat.
Proof.
  rewrite (analyze_geometry_bounded (box 2 3 4) _ _ box_2_3_4_bounds).
  eexists. split; [reflexivity|]. cbn [industrial.volume
    industrial.is_watertight industrial.is_volume industrial.vertex_count
    industrial.face_count industrial.edge_count].
  rewrite box_is_volume, box_volume, box_is_watertight by lra.
  repeat split. lra.
Qed.

(** ** The volume gate *)

Lemma inverted_box_volume (ex ey ez : R) :
  trimesh.volume (trimesh.invert (box ex ey ez)) = - (ex * ey * ez).
Proof.
  unfold trimesh.volume, trimesh.triangles, trimesh.invert, box. cbn.
  unfold trimesh.signed_tetrahedron, trimesh.dot, trimesh.cross,
    trimesh.vx, trimesh.vy, trimesh.vz. cbn.
  field.
Qed.

Lemma inverted_box_closed (ex ey ez : R) :
  trimesh.well_formed (trimesh.invert (box ex ey ez)) = true
  /\ trimesh.is_watertight (trimesh.invert (box ex ey ez)) = true
  /\ trimesh.is_winding_consistent (trimesh.invert (box ex ey ez)) = true.
Proof. repeat split. Qed.

Lemma Ok_inj {A : Type} (a b : A) : Ok a = Ok b -> a = b.
Proof. intros H. now injection H. Qed.

(** C4, as stated, fails twice.  The box of extents (2, 3, 4) turned inside
    out is watertight and consistently wound, its divergence-theorem volume
    is -24, and the reported volume is 0; and the empty mesh, which is not a
    volume, gets no report at all. *)
Lemma volume_claim_counterexample :
  ~ (forall m : trimesh.Trimesh,
       trimesh.well_formed m = true ->
       trimesh.is_watertight m = true ->
       trimesh.is_winding_consistent m = true ->
       industrial.calculate_volume m = Ok (trimesh.volume m))
  /\ ~ (forall m : trimesh.Trimesh,
          trimesh.well_formed m = true ->
          trimesh.is_volume m = false ->
          exists r : industrial.Analysis,
            industrial.analyze_geometry m = Ok r
            /\ industrial.volume r = 0
            /\ industrial.is_volume r = false).
Proof.
  split.
  - intros H.
    destruct (inverted_box_closed 2 3 4) as (Hwf & Hw & Hc).
    specialize (H _ Hwf Hw Hc).
    rewrite calculate_volume_spec, inverted_box_volume in H.
    apply Ok_inj in H.
    destruct (trimesh.is_volume (trimesh.invert (box 2 3 4))) eqn:E.
    + apply is_volume_positive in E. rewrite inverted_box_volume in E. lra.
    + lra.
  - intros H.
    destruct (H trimesh.Trimesh_init_empty eq_refl eq_refl) as (r & Hr & _).
    discriminate Hr.
Qed.

(** C4, amended.  [calculate_volume] never raises.  It returns 0 unless
    [mesh.is_volume] holds, that is unless the mesh is watertight,
    consistently wound and of positive signed volume; then it returns the
    divergence-theorem volume, one sixth of the sum of [v0 . (v1 x v2)] over
    the faces.  For a mesh that has bounds, [analyze_geometry] reports this
    value as the volume, with [is_volume] and [is_watertight] as the mesh
    has them. *)
Theorem calculate_volume_gated (m : trimesh.Trimesh)
  (Hwf : trimesh.well_formed m = true) :
  (trimesh.is_volume m = true <->
     trimesh.is_watertight m = true
     /\ trimesh.is_winding_consistent m = true
     /\ 0 < trimesh.volume m)
  /\ (trimesh.is_volume m = false -> industrial.calculate_volume m = Ok 0)
  /\ (trimesh.is_volume m = true ->
        industrial.calculate_volume m
        = Ok (trimesh.sum
                (map trimesh.signed_tetrahedron (trimesh.triangles m)) / 6))
  /\ (forall lo hi : trimesh.vec3,
        trimesh.bounds m = Some (lo, hi) ->
        exists r : industrial.Analysis,
          industrial.analyze_geometry m = Ok r
          /\ industrial.calculate_volume m = Ok (industrial.volume r)
          /\ industrial.is_volume r = trimesh.is_volume m
          /\ industrial.is_watertight r = trimesh.is_watertight m
          /\ (trimesh.is_volume m = false -> industrial.volume r = 0)).
Proof.
  split; [|split; [|split]].
  - unfold trimesh.is_volume. split.
    + intros H. apply andb_prop in H. destruct H as [H Hv].
      apply andb_prop in H. destruct H as [Hw Hc].
      repeat split; try assumption.
      destruct (Rlt_dec 0 (trimesh.volume m)); [assumption | discriminate].
    + intros (Hw & Hc & Hv). rewrite Hw, Hc.
      destruct (Rlt_dec 0 (trimesh.volume m)); [reflexivity | contradiction].
  - intros H. rewrite calculate_volume_spec, H. reflexivity.
  - intros H. rewrite calculate_volume_spec, H. reflexivity.
  - intros lo hi Hb.
    rewrite (analyze_geometry_bounded m lo hi Hb).
    eexists. split; [reflexivity|].
    cbn [industrial.volume industrial.is_volume industrial.is_watertight].
    rewrite calculate_volume_spec.
    repeat split. intros ->. reflexivity.
Qed.

(** The gate on the box of extents (2, 3, 4), a volume, whose report gives
    the volume 24. *)
Lemma calculate_volume_gated_witness :
  trimesh.well_formed (box 2 3 4) = true
  /\ trimesh.is_volume (box 2 3 4) = true
  /\ trimesh.bounds (box 2 3 4) = Some ((-1, -3 / 2, -2), (1, 3 / 2, 2))
  /\ industrial.calculate_volume (box 2 3 4)
     = Ok (trimesh.sum
             (map trimesh.signed_tetrahedron (trimesh.triangles (box 2 3 4)))
           / 6)
  /\ exists r : industrial.Analysis,
       industrial.analyze_geometry (box 2 3 4) = Ok r
       /\ industrial.calculate_volume (box 2 3 4) = Ok (industrial.volume r).
Proof.
  assert (Hv : trimesh.is_volume (box 2 3 4) = true)
    by (apply box_is_volume; lra).
  pose proof (calculate_volume_gated (box 2 3 4) (box_well_formed 2 3 4))
    as (_ & _ & Hvol & Hrep).
  split; [apply box_well_formed|].
  split; [exact Hv|].
  split; [exact box_2_3_4_bounds|].
  split; [exact (Hvol Hv)|].
  destruct (Hrep _ _ box_2_3_4_bounds) as (r & Hr & Hc & _).
  exists r. split; assumption.
Defined.

(** ** Material usage *)





(** The area of that triangle is one half. *)
Lemma single_triangle_area : trimesh.area single_triangle = 1 / 2.
Proof.
  unfold trimesh.area, trimesh.triangles, single_triangle. cbn.
  unfold trimesh.norm, trimesh.dot, trimesh.cross, trimesh.vsub,
    trimesh.vx, trimesh.vy, trimesh.vz. cbn.
  replace ((0 - 0) * (0 - 0) - (0 - 0) * (1 - 0)) with 0 by lra.
  replace ((0 - 0) * (0 - 0) - (1 - 0) * (0 - 0)) with 0 by lra.
  replace ((1 - 0) * (1 - 0) - (0 - 0) * (0 - 0)) with 1 by lra.
  replace (0 * 0 + 0 * 0 + 1 * 1) with 1 by lra.
  rewrite sqrt_1. lra.
Qed.

(* ===================================================================== *)
(** * Grids *)
(* ===================================================================== *)

Lemma set_last_length (l : list R) (v : R) :
  length (np.set_last l v) = length l.
Proof.
  induction l as [|a l IH]; [reflexivity|].
  destruct l as [|a' l']; [reflexivity|].
  change (np.set_last (a :: a' :: l') v) with (a :: np.set_last (a' :: l') v).
  simpl length in *. now rewrite IH.
Qed.

Lemma linspace_negative (start stop : R) (num : Z) :
  (num < 0)%Z -> np.linspace start stop num = Raise ValueError.
Proof.
  intros H. unfold np.linspace.
  destruct (Z.ltb_spec num 0); [reflexivity | lia].
Qed.

Lemma linspace_ok (start stop : R) (num : Z) :
  (0 <= num)%Z ->
  exists l : list R,
    np.linspace start stop num = Ok l /\ length l = Z.to_nat num.
Proof.
  intros H. unfold np.linspace.
  destruct (Z.ltb_spec num 0); [lia|].
  eexists. split; [reflexivity|].
  destruct (1 <? num)%Z, (0 <? num - 1)%Z;
    rewrite ?set_last_length, !length_map, length_seq; reflexivity.
Qed.

(** [np.linspace(start, stop, 1)] is [[start]]. *)
Lemma linspace_1 (start stop : R) :
  np.linspace start stop 1 = Ok [0 * (stop - start) + start].
Proof. reflexivity. Qed.

Lemma meshgrid_length (x y z : list R) :
  let '(X, Y, Z) := np.meshgrid x y z in
  length X = (length x * length y * length z)%nat
  /\ length Y = (length x * length y * length z)%nat
  /\ length Z = (length x * length y * length z)%nat.
Proof.
  unfold np.meshgrid.
  assert (Hin : forall (g : R -> R -> R -> R) (xi : R),
             length (flat_map (fun yj => map (fun zk => g xi yj zk) z) y)
             = (length y * length z)%nat).
  { intros g xi. induction y as [|yj y IH]; [reflexivity|].
    simpl. rewrite length_app, length_map, IH. reflexivity. }
  assert (Hout : forall g : R -> R -> R -> R,
             length (flat_map
                       (fun xi => flat_map
                                    (fun yj => map (fun zk => g xi yj zk) z) y)
                       x)
             = (length x * length y * length z)%nat).
  { intros g. induction x as [|xi x IH]; [reflexivity|].
    simpl. rewrite length_app, IH, Hin. lia. }
  repeat split.
  - apply (Hout (fun xi _ _ => xi)).
  - apply (Hout (fun _ yj _ => yj)).
  - apply (Hout (fun _ _ zk => zk)).
Qed.

(** For a resolution [n >= 0] the grid exists and has [n * n * n] points;
    a negative resolution is rejected by [np.linspace]. *)
Lemma grid_ok (b : marching_cubes.Bounds) (n : Z) :
  (0 <= n)%Z ->
  exists X Y Z : list R,
    marching_cubes.grid b n = Ok (X, Y, Z)
    /\ length X = (Z.to_nat n * Z.to_nat n * Z.to_nat n)%nat
    /\ length Y = (Z.to_nat n * Z.to_nat n * Z.to_nat n)%nat
    /\ length Z = (Z.to_nat n * Z.to_nat n * Z.to_nat n)%nat.
Proof.
  intros Hn. destruct b as [[[x_min x_max] [y_min y_max]] [z_min z_max]].
  unfold marching_cubes.grid.
  destruct (linspace_ok x_min x_max n Hn) as (x & -> & Hx).
  destruct (linspace_ok y_min y_max n Hn) as (y & -> & Hy).
  destruct (linspace_ok z_min z_max n Hn) as (z & -> & Hz).
  cbn [Py.bind].
  pose proof (meshgrid_length x y z) as Hlen.
  destruct (np.meshgrid x y z) as [[X Y] Z].
  rewrite Hx, Hy, Hz in Hlen.
  exists X, Y, Z. split; [reflexivity | exact Hlen].
Qed.

Lemma grid_negative (b : marching_cubes.Bounds) (n : Z) :
  (n < 0)%Z -> marching_cubes.grid b n = Raise ValueError.
Proof.
  intros Hn. destruct b as [[[x_min x_max] [y_min y_max]] [z_min z_max]].
  unfold marching_cubes.grid. now rewrite linspace_negative.
Qed.

(* ===================================================================== *)
(** * Runs of the extraction *)
(* ===================================================================== *)

Section Uniform.

Import marching_cubes.

Context {A B : Type}.

Lemma uniform_ret (a : A) : uniform (ret a) (Ok a) [].
Proof. intros t. unfold run, ret. now rewrite app_nil_r. Qed.

Lemma uniform_raise (e : exn) : uniform (@raise A e) (Raise e) [].
Proof. intros t. unfold run, raise. now rewrite app_nil_r. Qed.

Lemma uniform_lift (r : result A) : uniform (lift r) r [].
Proof. intros t. unfold run, lift. now rewrite app_nil_r. Qed.

Lemma uniform_bind_ok (m : M A) (k : A -> M B) (a : A) (r : result B)
  (e1 e2 : trace) :
  uniform m (Ok a) e1 -> uniform (k a) r e2 ->
  uniform (mbind m k) r (e1 ++ e2).
Proof.
  unfold uniform, run. intros Hm Hk t. unfold mbind.
  rewrite (Hm t). rewrite (Hk (t ++ e1)). now rewrite app_assoc.
Qed.

Lemma uniform_bind_raise (m : M A) (k : A -> M B) (e : exn) (e1 : trace) :
  uniform m (Raise e) e1 -> uniform (mbind m k) (Raise e) e1.
Proof. unfold uniform, run. intros Hm t. unfold mbind. now rewrite (Hm t). Qed.

Lemma uniform_lift_ok (a : A) (k : A -> M B) (r : result B) (e : trace) :
  uniform (k a) r e -> uniform (mbind (lift (Ok a)) k) r e.
Proof.
  intros Hk.
  apply uniform_bind_ok with (a := a) (e1 := []); [apply uniform_lift|].
  exact Hk.
Qed.

Lemma uniform_lift_ok_ex (a : A) (k : A -> M B) (e0 : event) :
  (exists r evs, uniform (k a) r (e0 :: evs)) ->
  exists r evs, uniform (mbind (lift (Ok a)) k) r (e0 :: evs).
Proof.
  intros (r & evs & Hk). exists r, evs. now apply uniform_lift_ok.
Qed.

(** Every computation built from uniform parts is uniform. *)
Lemma uniform_bind (m : M A) (k : A -> M B) :
  (exists r e, uniform m r e) ->
  (forall a, exists r e, uniform (k a) r e) ->
  exists r e, uniform (mbind m k) r e.
Proof.
  intros (r1 & e1 & Hm) Hk. destruct r1 as [a|e].
  - destruct (Hk a) as (r2 & e2 & Hka).
    exists r2, (e1 ++ e2). now apply uniform_bind_ok with (a := a).
  - exists (Raise e), e1. now apply uniform_bind_raise.
Qed.

Lemma uniform_try_except_ImportError (body handler : M A) :
  (exists r e, uniform body r e) ->
  (exists r e, uniform handler r e) ->
  exists r e, uniform (try_except_ImportError body handler) r e.
Proof.
  unfold uniform, run. intros (r1 & e1 & Hb) (r2 & e2 & Hh).
  destruct r1 as [a|[]].
  2:{ exists r2, (e1 ++ e2). intros t. unfold try_except_ImportError.
      rewrite (Hb t). rewrite (Hh (t ++ e1)). now rewrite app_assoc. }
  all: eexists; exists e1; intros t; unfold try_except_ImportError;
    rewrite (Hb t); reflexivity.
Qed.

End Uniform.

Section Extraction.

Import marching_cubes.

Context {T : Type} `{Field T}.

Variable libs : Libs.
Variable field : T.

Lemma uniform_sample (X Y Z : list R) :
  uniform (sample field X Y Z)
    (call field (np.Arr X) (np.Arr Y) (np.Arr Z)) [Sampled X Y Z].
Proof. intros t. reflexivity. Qed.

Ltac uniform_auto :=
  repeat match goal with
    | |- forall _, _ => intros ?
    | |- exists r e, uniform (mbind _ _) r e => apply uniform_bind
    | |- exists r e, uniform (try_except_ImportError _ _) r e =>
        apply uniform_try_except_ImportError
    | |- exists r e, uniform (ret _) r e =>
        eexists; eexists; apply uniform_ret
    | |- exists r e, uniform (raise _) r e =>
        eexists; eexists; apply uniform_raise
    | |- exists r e, uniform (lift _) r e =>
        eexists; eexists; apply uniform_lift
    | |- exists r e, uniform (sample _ _ _ _) r e =>
        eexists; eexists; apply uniform_sample
    | |- exists r e, uniform (match ?c with _ => _ end) r e => destruct c
    end.

Lemma uniform_marching_cubes_simple (resolution : Z) (iso_value : R)
  (bounds : Bounds) :
  exists r e,
    uniform (_marching_cubes_simple libs field resolution iso_value bounds)
      r e.
Proof. unfold _marching_cubes_simple. uniform_auto. Qed.

Lemma uniform_after_sample {A : Type} (X Y Z : list R)
  (k : np.ndarray -> M A) :
  (forall fv, exists r e, uniform (k fv) r e) ->
  exists r evs, uniform (mbind (sample field X Y Z) k) r (Sampled X Y Z :: evs).
Proof.
  intros Hk.
  destruct (call field (np.Arr X) (np.Arr Y) (np.Arr Z)) as [fv|e] eqn:Ecall.
  - destruct (Hk fv) as (r & e2 & Hfv).
    exists r, e2.
    apply uniform_bind_ok with (a := fv) (e1 := [Sampled X Y Z]);
      [|exact Hfv].
    rewrite <- Ecall. apply uniform_sample.
  - exists (Raise e), [].
    apply uniform_bind_raise.
    rewrite <- Ecall. apply uniform_sample.
Qed.

(** [generate_mesh] builds the grid, samples the field on it, and only then
    turns to the libraries; when the grid cannot be built nothing is
    sampled. *)
Lemma generate_mesh_shape (resolution : Z) (iso_value : R)
  (bounds : option Bounds) :
  match grid (bounds_or_default bounds) resolution with
  | Raise e =>
      uniform (generate_mesh libs field resolution iso_value bounds)
        (Raise e) []
  | Ok (X, Y, Z) =>
      exists r evs,
        uniform (generate_mesh libs field resolution iso_value bounds)
          r (Sampled X Y Z :: evs)
  end.
Proof.
  unfold generate_mesh, grid.
  change ((-5, 5, (-5, 5), (-5, 5)) : Bounds) with default_bounds.
  fold (bounds_or_default bounds).
  destruct (bounds_or_default bounds)
    as [[[x_min x_max] [y_min y_max]] [z_min z_max]].
  destruct (np.linspace x_min x_max resolution) as [x|e]; cbn [Py.bind].
  2:{ apply uniform_bind_raise, uniform_lift. }
  destruct (np.linspace y_min y_max resolution) as [y|e]; cbn [Py.bind].
  2:{ apply uniform_lift_ok. apply uniform_bind_raise, uniform_lift. }
  destruct (np.linspace z_min z_max resolution) as [z|e]; cbn [Py.bind].
  2:{ do 2 apply uniform_lift_ok. apply uniform_bind_raise, uniform_lift. }
  do 3 (apply uniform_lift_ok_ex; cbv beta).
  unfold np.meshgrid. cbv beta iota.
  apply uniform_after_sample. intros fv.
  unfold import_skimage_measure.
  apply uniform_bind; [|uniform_auto].
  apply uniform_try_except_ImportError;
    [uniform_auto | apply uniform_marching_cubes_simple].
Qed.

End Extraction.

Section ExtractionClaims.

Import marching_cubes.

Context {T : Type} `{Field T}.

Variable libs : Libs.
Variable field : T.


(** C2, amended.  [generate_mesh] validates nothing itself.  For every
    resolution [n >= 0] and every box, also one with [min >= max] on some
    axis, it builds the lattice of [n * n * n] points and samples the field
    on it before anything else; whatever error there is arises once the
    field has been called.  Only a negative resolution is rejected before sampling, by
    [np.linspace], with [ValueError]. *)
Theorem generate_mesh_samples_before_extraction (resolution : Z)
  (iso_value : R) (bounds : option Bounds) (t : trace) :
  ((0 <= resolution)%Z ->
   exists (X Y Z : list R) (r : result trimesh.Trimesh) (t' : trace),
     grid (bounds_or_default bounds) resolution = Ok (X, Y, Z)
     /\ length X
        = (Z.to_nat resolution * Z.to_nat resolution * Z.to_nat resolution)%nat
     /\ length Y = length X
     /\ length Z = length X
     /\ run (generate_mesh libs field resolution iso_value bounds) t
        = (r, t ++ Sampled X Y Z :: t'))
  /\ ((resolution < 0)%Z ->
      run (generate_mesh libs field resolution iso_value bounds) t
      = (Raise ValueError, t)).
Proof.
  pose proof (generate_mesh_shape libs field resolution iso_value bounds)
    as Hs.
  split; intros Hn.
  - destruct (grid_ok (bounds_or_default bounds) resolution Hn)
      as (X & Y & Z & Hg & HX & HY & HZ).
    rewrite Hg in Hs. destruct Hs as (r & evs & Hs).
    exists X, Y, Z, r, evs.
    split; [exact Hg|]. split; [exact HX|].
    split; [congruence|]. split; [congruence|]. apply Hs.
  - rewrite (grid_negative (bounds_or_default bounds) resolution Hn) in Hs.
    rewrite (Hs t). now rewrite app_nil_r.
Qed.


(** C10.  Without a [bounds] argument the box
    [((-5, 5), (-5, 5), (-5, 5))] is sampled: a call with [bounds = None]
    runs exactly as the call with that box passed explicitly, at every
    field, resolution and iso-value, and for a resolution [n >= 0] the field
    is sampled on the lattice of that box. *)
Theorem generate_mesh_default_bounds (resolution : Z) (iso_value : R)
  (t : trace) :
  run (generate_mesh libs field resolution iso_value None) t
  = run (generate_mesh libs field resolution iso_value
           (Some ((-5, 5), (-5, 5), (-5, 5)))) t
  /\ fst (run (generate_mesh libs field resolution iso_value None) t)
     = fst (run (generate_mesh libs field resolution iso_value
                   (Some default_bounds)) t)
  /\ ((0 <= resolution)%Z ->
      exists (X Y Z : list R) (r : result trimesh.Trimesh) (t' : trace),
        grid ((-5, 5), (-5, 5), (-5, 5)) resolution = Ok (X, Y, Z)
        /\ run (generate_mesh libs field resolution iso_value None) t
           = (r, t ++ Sampled X Y Z :: t')).
Proof.
  split; [reflexivity|]. split; [reflexivity|].
  intros Hn.
  pose proof (generate_mesh_shape libs field resolution iso_value None) as Hs.
  destruct (grid_ok (bounds_or_default None) resolution Hn)
    as (X & Y & Z & Hg & _).
  rewrite Hg in Hs. destruct Hs as (r & evs & Hs).
  exists X, Y, Z, r, evs. split; [exact Hg | apply Hs].
Qed.

End ExtractionClaims.

(** The outcome depends on the field only through its values on the
    lattice: two fields that agree there run alike. *)
Lemma generate_mesh_depends_on_samples
  {T1 T2 : Type} `{Field T1} `{Field T2}
  (libs : marching_cubes.Libs) (f : T1) (g : T2)
  (resolution : Z) (iso_value : R) (bounds : option marching_cubes.Bounds) :
  (forall X Y Z : list R,
     marching_cubes.grid (marching_cubes.bounds_or_default bounds) resolution
     = Ok (X, Y, Z) ->
     call f (np.Arr X) (np.Arr Y) (np.Arr Z)
     = call g (np.Arr X) (np.Arr Y) (np.Arr Z)) ->
  forall t : marching_cubes.trace,
    marching_cubes.run
      (marching_cubes.generate_mesh libs f resolution iso_value bounds) t
    = marching_cubes.run
        (marching_cubes.generate_mesh libs g resolution iso_value bounds) t.
Proof.
  unfold marching_cubes.generate_mesh, marching_cubes.grid,
    marching_cubes._marching_cubes_simple.
  change ((-5, 5, (-5, 5), (-5, 5)) : marching_cubes.Bounds)
    with marching_cubes.default_bounds.
  fold (marching_cubes.bounds_or_default bounds).
  destruct (marching_cubes.bounds_or_default bounds)
    as [[[x_min x_max] [y_min y_max]] [z_min z_max]].
  destruct (np.linspace x_min x_max resolution) as [x|e]; [|reflexivity].
  destruct (np.linspace y_min y_max resolution) as [y|e]; [|reflexivity].
  destruct (np.linspace z_min z_max resolution) as [z|e]; [|reflexivity].
  cbn [Py.bind]. unfold np.meshgrid.
  intros Hsame t. specialize (Hsame _ _ _ eq_refl).
  unfold marching_cubes.run, marching_cubes.mbind, marching_cubes.lift,
    marching_cubes.sample.
  cbv beta iota.
  rewrite !Hsame. reflexivity.
Qed.

(* ===================================================================== *)
(** * A constant field *)
(* ===================================================================== *)

Lemma sum_const {A : Type} (c : R) (l : list A) :
  np.sum (map (fun _ => c) l) = INR (length l) * c.
Proof.
  induction l as [|a l IH]; [simpl; lra|].
  change (np.sum (map (fun _ => c) (a :: l)))
    with (c + np.sum (map (fun _ => c) l)).
  rewrite IH. change (length (a :: l)) with (S (length l)).
  rewrite S_INR. lra.
Qed.

Lemma mean_const {A : Type} (c : R) (a : A) (l : list A) :
  np.mean (map (fun _ => c) (a :: l)) = c.
Proof.
  unfold np.mean. rewrite sum_const, length_map.
  assert (0 < INR (length (a :: l))) by (apply lt_0_INR; simpl; lia).
  field. lra.
Qed.

(** The standard deviation of a constant array is 0. *)
Lemma std_const {A : Type} (c : R) (l : list A) :
  np.std (np.Arr (map (fun _ => c) l)) = 0.
Proof.
  unfold np.std. rewrite map_map.
  destruct l as [|a l].
  - simpl. unfold np.mean, np.sum. simpl.
    unfold Rdiv. rewrite Rmult_0_l. apply sqrt_0.
  - rewrite !mean_const.
    replace (c - c) with 0 by lra. rewrite Rabs_R0.
    replace (0 ^ 2) with 0 by lra. apply sqrt_0.
Qed.

Lemma amin_const {A : Type} (c : R) (l : list A) :
  np.amin c (map (fun _ => c) l) = c.
Proof.
  induction l as [|a l IH]; [reflexivity|].
  change (np.amin c (map (fun _ => c) (a :: l)))
    with (Rmin c (np.amin c (map (fun _ : A => c) l))).
  rewrite IH. apply Rmin_left. lra.
Qed.

Lemma amax_const {A : Type} (c : R) (l : list A) :
  np.amax c (map (fun _ => c) l) = c.
Proof.
  induction l as [|a l IH]; [reflexivity|].
  change (np.amax c (map (fun _ => c) (a :: l)))
    with (Rmax c (np.amax c (map (fun _ : A => c) l))).
  rewrite IH. apply Rmax_left. lra.
Qed.

Lemma select_none {A B : Type} (l : list A) (l' : list B) :
  np.select l (map (fun _ => false) l') = [].
Proof.
  revert l. induction l' as [|b l' IH]; intros [|a l]; simpl; auto.
Qed.

(** The field values of a constant field on a grid. *)
Lemma ConstantField_call (c : R) (X Y Z : list R) :
  call (ConstantField_init c) (np.Arr X) (np.Arr Y) (np.Arr Z)
  = Ok (np.Arr (map (fun _ => c) X)).
Proof.
  rewrite call_affine.
  unfold evaluate, ConstantField_Field, ConstantField_evaluate, affine.
  cbn [np.ufunc1 ConstantField_value ConstantField_init].
  now rewrite map_map.
Qed.

(** [marching_cubes], called without the keyword [origin], rejects a level
    outside the range of the volume data. *)
Lemma marching_cubes_level_outside_range
  (core : nat -> list R -> R -> R * R * R -> skimage.surface)
  (n : nat) (v : R) (vs : list R) (lvl : R) (s : option (R * R * R)) :
  lvl < np.amin v vs \/ np.amax v vs < lvl ->
  skimage.marching_cubes core n (np.Arr (v :: vs))
    {| skimage.level := Some lvl; skimage.spacing := s;
       skimage.origin := None |}
  = Raise ValueError.
Proof.
  intros Hout. unfold skimage.marching_cubes.
  cbn [skimage.origin skimage.level].
  destruct (negb _); [reflexivity|].
  destruct (n <? 2)%nat; [reflexivity|].
  destruct (Rlt_dec lvl (np.amin v vs)); [reflexivity|].
  destruct (Rlt_dec (np.amax v vs) lvl); [reflexivity|].
  tauto.
Qed.

(** A call that passes [origin] is rejected whatever the volume. *)
Lemma marching_cubes_origin
  (core : nat -> list R -> R -> R * R * R -> skimage.surface)
  (n : nat) (volume : np.ndarray) (l : option R) (s : option (R * R * R))
  (o : R * R * R) :
  skimage.marching_cubes core n volume
    {| skimage.level := l; skimage.spacing := s; skimage.origin := Some o |}
  = Raise TypeError.
Proof. reflexivity. Qed.

Section ConstantExtraction.

Import marching_cubes.

Variable libs : Libs.
Variable c : R.

Lemma less_abs_const {A : Type} (iso : R) (l : list A) :
  np.less (np.abs (np.Arr (map (fun v => v - iso) (map (fun _ => c) l))))
    (1 / 10 * 0)
  = np.MaskArr (map (fun _ => false) l).
Proof.
  unfold np.less, np.abs, np.ufunc1. rewrite !map_map. f_equal.
  apply map_ext. intros a. unfold np.ltb.
  destruct (Rlt_dec (Rabs (c - iso)) (1 / 10 * 0)) as [Hlt|]; [|reflexivity].
  pose proof (Rabs_pos (c - iso)). lra.
Qed.

(** Without scikit-image, a constant field yields the empty mesh, at every
    resolution [n >= 0], every box and every iso-value; the field is sampled
    twice. *)
Lemma fallback_constant_field (resolution : Z) (iso_value : R)
  (bounds : option Bounds) :
  (0 <= resolution)%Z ->
  exists X Y Z : list R,
    grid (bounds_or_default bounds) resolution = Ok (X, Y, Z)
    /\ uniform
         (generate_mesh (without_skimage libs) (ConstantField_init c)
            resolution iso_value bounds)
         (Ok trimesh.Trimesh_init_empty) [Sampled X Y Z; Sampled X Y Z].
Proof.
  intros Hn.
  unfold generate_mesh, grid.
  change ((-5, 5, (-5, 5), (-5, 5)) : Bounds) with default_bounds.
  fold (bounds_or_default bounds).
  destruct (bounds_or_default bounds)
    as [[[x_min x_max] [y_min y_max]] [z_min z_max]].
  destruct (linspace_ok x_min x_max resolution Hn) as (x & Hx & _).
  destruct (linspace_ok y_min y_max resolution Hn) as (y & Hy & _).
  destruct (linspace_ok z_min z_max resolution Hn) as (z & Hz & _).
  unfold _marching_cubes_simple.
  rewrite Hx, Hy, Hz. cbn [Py.bind].
  unfold np.meshgrid.
  do 3 eexists. split; [reflexivity|].
  intros t. unfold run, mbind, lift, sample, try_except_ImportError,
    import_skimage_measure, without_skimage, ret, raise.
  cbn [skimage_measure].
  rewrite !ConstantField_call.
  unfold np.subtract. rewrite ufunc2_scalar_r. cbn [np.ufunc1].
  rewrite std_const, less_abs_const.
  pose proof (meshgrid_length x y z) as (HX & HY & HZ).
  unfold np.getitem. rewrite !length_map, HX, HY, HZ, Nat.eqb_refl.
  rewrite !select_none. cbn.
  now rewrite <- app_assoc.
Qed.

End ConstantExtraction.

Section PrimaryPath.

Import marching_cubes.

Context {T : Type} `{Field T}.

Variable libs : Libs.
Variable field : T.

(** With scikit-image installed, at a resolution other than 1, the call of
    [measure.marching_cubes] passes the keyword [origin] and is rejected:
    [generate_mesh] raises [TypeError] once the field has been sampled. *)
Lemma primary_path_raises
  (core : nat -> list R -> R -> R * R * R -> skimage.surface)
  (resolution : Z) (iso_value : R) (bounds : option Bounds)
  (X Y Z : list R) (fv : np.ndarray) :
  resolution <> 1%Z ->
  grid (bounds_or_default bounds) resolution = Ok (X, Y, Z) ->
  call field (np.Arr X) (np.Arr Y) (np.Arr Z) = Ok fv ->
  uniform
    (generate_mesh (with_skimage (skimage.marching_cubes core) libs) field
       resolution iso_value bounds)
    (Raise TypeError) [Sampled X Y Z].
Proof.
  intros Hn.
  unfold generate_mesh, grid.
  change ((-5, 5, (-5, 5), (-5, 5)) : Bounds) with default_bounds.
  fold (bounds_or_default bounds).
  destruct (bounds_or_default bounds)
    as [[[x_min x_max] [y_min y_max]] [z_min z_max]].
  destruct (np.linspace x_min x_max resolution) as [x|]; [|discriminate].
  destruct (np.linspace y_min y_max resolution) as [y|]; [|discriminate].
  destruct (np.linspace z_min z_max resolution) as [z|]; [|discriminate].
  cbn [Py.bind]. unfold np.meshgrid.
  intros Hg Hcall. injection Hg as <- <- <-.
  intros t. unfold run, mbind, lift, sample, try_except_ImportError,
    import_skimage_measure, with_skimage, ret, raise, truediv.
  cbn [skimage_measure].
  rewrite Hcall.
  destruct (Z.eqb_spec (resolution - 1) 0) as [E|_]; [lia|].
  reflexivity.
Qed.

(** With scikit-image installed, at resolution 1, the spacing divides by
    [resolution - 1 = 0]: [generate_mesh] raises [ZeroDivisionError] once
    the field has been sampled, whatever [marching_cubes] would do. *)
Lemma primary_path_resolution_1
  (mc : nat -> np.ndarray -> skimage.kwargs -> result skimage.surface)
  (iso_value : R) (bounds : option Bounds)
  (X Y Z : list R) (fv : np.ndarray) :
  grid (bounds_or_default bounds) 1 = Ok (X, Y, Z) ->
  call field (np.Arr X) (np.Arr Y) (np.Arr Z) = Ok fv ->
  uniform
    (generate_mesh (with_skimage mc libs) field 1 iso_value bounds)
    (Raise ZeroDivisionError) [Sampled X Y Z].
Proof.
  unfold generate_mesh, grid.
  change ((-5, 5, (-5, 5), (-5, 5)) : Bounds) with default_bounds.
  fold (bounds_or_default bounds).
  destruct (bounds_or_default bounds)
    as [[[x_min x_max] [y_min y_max]] [z_min z_max]].
  rewrite !linspace_1. cbn [Py.bind]. unfold np.meshgrid.
  cbn [flat_map map app].
  intros Hg Hcall. injection Hg as <- <- <-.
  intros t. unfold run, mbind, lift, sample, try_except_ImportError,
    import_skimage_measure, with_skimage, ret, raise, truediv.
  cbn [skimage_measure flat_map map app].
  rewrite Hcall. reflexivity.
Qed.

End PrimaryPath.

(* ===================================================================== *)
(** * Totality and validation of the extraction *)
(* ===================================================================== *)

(** C1.  A constant field [c] extracted at an iso-value other than [c], at a
    valid resolution, does not give an empty mesh when scikit-image is
    installed: [generate_mesh] raises [TypeError], because the call of
    [measure.marching_cubes] passes the keyword [origin]; the same volume
    and level passed without that keyword are rejected with [ValueError],
    the level being outside the range of the volume data; only
    [ImportError] is caught.  Without scikit-image the same call returns the
    empty mesh. *)
Theorem generate_mesh_constant_field
  (libs : marching_cubes.Libs)
  (core : nat -> list R -> R -> R * R * R -> skimage.surface)
  (c iso_value : R) (bounds : option marching_cubes.Bounds)
  (resolution : Z) (t : marching_cubes.trace)
  (Hn : (2 <= resolution)%Z) (Hout : iso_value <> c) :
  fst (marching_cubes.run
         (marching_cubes.generate_mesh
            (marching_cubes.with_skimage (skimage.marching_cubes core) libs)
            (ConstantField_init c) resolution iso_value bounds) t)
  = Raise TypeError
  /\ (forall (X Y Z : list R) (s : option (R * R * R)),
        marching_cubes.grid (marching_cubes.bounds_or_default bounds)
          resolution = Ok (X, Y, Z) ->
        exists volume : np.ndarray,
          call (ConstantField_init c) (np.Arr X) (np.Arr Y) (np.Arr Z)
          = Ok volume
          /\ skimage.marching_cubes core (Z.to_nat resolution) volume
               {| skimage.level := Some iso_value;
                  skimage.spacing := s;
                  skimage.origin := None |}
             = Raise ValueError)
  /\ fst (marching_cubes.run
            (marching_cubes.generate_mesh
               (marching_cubes.without_skimage libs)
               (ConstantField_init c) resolution iso_value bounds) t)
     = Ok trimesh.Trimesh_init_empty.
Proof.
  assert (H0 : (0 <= resolution)%Z) by lia.
  destruct (grid_ok (marching_cubes.bounds_or_default bounds) resolution H0)
    as (X & Y & Z & Hg & _).
  split; [|split].
  - assert (H1 : resolution <> 1%Z) by lia.
    rewrite (primary_path_raises libs (ConstantField_init c) core resolution
               iso_value bounds X Y Z (np.Arr (map (fun _ => c) X))
               H1 Hg (ConstantField_call c X Y Z) t).
    reflexivity.
  - intros X' Y' Z' s Hg'.
    exists (np.Arr (map (fun _ => c) X')).
    split; [apply ConstantField_call|].
    destruct X' as [|a X'']; [reflexivity|].
    cbn [map].
    apply marching_cubes_level_outside_range.
    rewrite amin_const, amax_const. lra.
  - destruct (fallback_constant_field libs c resolution iso_value bounds H0)
      as (X' & Y' & Z' & _ & Hu).
    rewrite (Hu t). reflexivity.
Qed.

(** The constant field +5 at iso-value 0 and the default resolution 50. *)
Lemma generate_mesh_constant_field_witness :
  (2 <= 50)%Z
  /\ 0 <> 5
  /\ fst (marching_cubes.run
            (marching_cubes.generate_mesh
               (marching_cubes.with_skimage
                  (skimage.marching_cubes no_surface) plain_libs)
               (ConstantField_init 5) 50 0 None) [])
     = Raise TypeError
  /\ fst (marching_cubes.run
            (marching_cubes.generate_mesh
               (marching_cubes.without_skimage plain_libs)
               (ConstantField_init 5) 50 0 None) [])
     = Ok trimesh.Trimesh_init_empty.
Proof.
  assert (Hn : (2 <= 50)%Z) by lia.
  assert (Hout : 0 <> 5) by lra.
  pose proof (generate_mesh_constant_field plain_libs no_surface 5 0 None
                50 [] Hn Hout) as (Hprimary & _ & Hfallback).
  repeat split; assumption.
Defined.

(** C2, as stated, fails.  At resolution 1, and at resolution 2 on a box
    whose x axis has [min > max], the field is sampled; without scikit-image
    the call then returns the empty mesh and no error is raised at all, and
    with scikit-image at resolution 1 the error, [ZeroDivisionError], comes
    after the sampling.  So it is not the case that every call with a
    resolution below 2 or a degenerate box raises before it samples. *)
Lemma generate_mesh_no_validation :
  (exists X Y Z : list R,
     marching_cubes.run
       (marching_cubes.generate_mesh plain_libs (ConstantField_init 5)
          1 0 None) []
     = (Ok trimesh.Trimesh_init_empty,
        [marching_cubes.Sampled X Y Z; marching_cubes.Sampled X Y Z])
     /\ length X = 1%nat)
  /\ (exists X Y Z : list R,
        marching_cubes.run
          (marching_cubes.generate_mesh plain_libs (ConstantField_init 5)
             2 0 (Some ((5, -5), (-5, 5), (-5, 5)))) []
        = (Ok trimesh.Trimesh_init_empty,
           [marching_cubes.Sampled X Y Z; marching_cubes.Sampled X Y Z])
        /\ length X = 8%nat)
  /\ (exists X Y Z : list R,
        marching_cubes.run
          (marching_cubes.generate_mesh
             (marching_cubes.with_skimage
                (skimage.marching_cubes no_surface) plain_libs)
             (ConstantField_init 5) 1 0 None) []
        = (Raise ZeroDivisionError, [marching_cubes.Sampled X Y Z]))
  /\ ~ (forall (libs : marching_cubes.Libs) (resolution : Z) (iso_value : R)
               (bounds : marching_cubes.Bounds) (t : marching_cubes.trace),
          (resolution < 2)%Z \/ marching_cubes.degenerate bounds ->
          exists e : exn,
            marching_cubes.run
              (marching_cubes.generate_mesh libs (ConstantField_init 5)
                 resolution iso_value (Some bounds)) t
            = (Raise e, t)).
Proof.
  split; [|split; [|split]].
  - destruct (fallback_constant_field plain_libs 5 1 0 None ltac:(lia))
      as (X & Y & Z & Hg & Hu).
    exists X, Y, Z. split; [apply (Hu [])|].
    injection Hg as <- _ _. reflexivity.
  - destruct (fallback_constant_field plain_libs 5 2 0
                (Some ((5, -5), (-5, 5), (-5, 5))) ltac:(lia))
      as (X & Y & Z & Hg & Hu).
    exists X, Y, Z. split; [apply (Hu [])|].
    injection Hg as <- _ _. reflexivity.
  - destruct (grid_ok (marching_cubes.bounds_or_default None) 1 ltac:(lia))
      as (X & Y & Z & Hg & _).
    exists X, Y, Z.
    apply (primary_path_resolution_1 plain_libs (ConstantField_init 5)
             (skimage.marching_cubes no_surface) 0 None X Y Z
             (np.Arr (map (fun _ => 5) X)) Hg (ConstantField_call 5 X Y Z) []).
  - intros Hclaim.
    assert (H1 : (1 < 2)%Z) by lia.
    destruct (Hclaim plain_libs 1%Z 0 marching_cubes.default_bounds []
                (or_introl H1)) as (e & He).
    destruct (fallback_constant_field plain_libs 5 1 0
                (Some marching_cubes.default_bounds) ltac:(lia))
      as (X & Y & Z & _ & Hu).
    change (marching_cubes.without_skimage plain_libs) with plain_libs in Hu.
    rewrite (Hu []) in He. discriminate He.
Qed.

(** Resolution 1 on a box whose x axis runs from 5 down to -5: the Gyroid of
    the unit tests is sampled on the single lattice point. *)
Lemma generate_mesh_samples_before_extraction_witness :
  (0 <= 1)%Z
  /\ exists (X Y Z : list R) (r : result trimesh.Trimesh)
            (t' : marching_cubes.trace),
       marching_cubes.grid ((5, -5), (-5, 5), (-5, 5)) 1 = Ok (X, Y, Z)
       /\ length X = 1%nat
       /\ marching_cubes.run
            (marching_cubes.generate_mesh plain_libs (Gyroid_init 10 0) 1 0
               (Some ((5, -5), (-5, 5), (-5, 5)))) []
          = (r, marching_cubes.Sampled X Y Z :: t').
Proof.
  assert (Hn : (0 <= 1)%Z) by lia.
  split; [exact Hn|].
  destruct (proj1 (generate_mesh_samples_before_extraction plain_libs
                     (Gyroid_init 10 0) 1 0
                     (Some ((5, -5), (-5, 5), (-5, 5))) []) Hn)
    as (X & Y & Z & r & t' & Hg & HX & _ & _ & Hrun).
  exists X, Y, Z, r, t'. repeat split; assumption.
Defined.

(** The Gyroid of the unit tests at resolution 25 without a [bounds]
    argument. *)
Lemma generate_mesh_default_bounds_witness :
  (0 <= 25)%Z
  /\ marching_cubes.run
       (marching_cubes.generate_mesh plain_libs (Gyroid_init 10 0) 25 0
          None) []
     = marching_cubes.run
         (marching_cubes.generate_mesh plain_libs (Gyroid_init 10 0) 25 0
            (Some ((-5, 5), (-5, 5), (-5, 5)))) []
  /\ exists (X Y Z : list R) (r : result trimesh.Trimesh)
            (t' : marching_cubes.trace),
       marching_cubes.grid ((-5, 5), (-5, 5), (-5, 5)) 25 = Ok (X, Y, Z)
       /\ marching_cubes.run
            (marching_cubes.generate_mesh plain_libs (Gyroid_init 10 0) 25 0
               None) []
          = (r, marching_cubes.Sampled X Y Z :: t').
Proof.
  assert (Hn : (0 <= 25)%Z) by lia.
  pose proof (generate_mesh_default_bounds plain_libs (Gyroid_init 10 0)
                25 0 []) as (Heq & _ & Hgrid).
  split; [exact Hn|]. split; [exact Heq|].
  exact (Hgrid Hn).
Defined.

(* ===================================================================== *)
(** * Further properties of the fields *)
(* ===================================================================== *)

(** ** Range, period and symmetry of the two base formulas *)











(** The callable form of the two fields on one point. *)
Lemma Gyroid_call_scalar (b : ScalarField) (t x y z : R) :
  call {| Gyroid_base := b; Gyroid_thickness := t |}
    (np.Scalar x) (np.Scalar y) (np.Scalar z)
  = Gyroid_evaluate {| Gyroid_base := b; Gyroid_thickness := t |}
      (np.Scalar (x * scale b + offset_0 (offset b)))
      (np.Scalar (y * scale b + offset_1 (offset b)))
      (np.Scalar (z * scale b + offset_2 (offset b))).
Proof. rewrite call_affine. reflexivity. Qed.

Lemma SchwarzP_call_scalar (b : ScalarField) (t x y z : R) :
  call {| SchwarzP_base := b; SchwarzP_thickness := t |}
    (np.Scalar x) (np.Scalar y) (np.Scalar z)
  = SchwarzP_evaluate {| SchwarzP_base := b; SchwarzP_thickness := t |}
      (np.Scalar (x * scale b + offset_0 (offset b)))
      (np.Scalar (y * scale b + offset_1 (offset b)))
      (np.Scalar (z * scale b + offset_2 (offset b))).
Proof. rewrite call_affine. reflexivity. Qed.





(** ** Arrays that cannot be combined *)

Lemma ufunc2_mismatch (f : R -> R -> R) (l1 l2 : list R) :
  length l1 <> length l2 -> length l1 <> 1%nat -> length l2 <> 1%nat ->
  np.ufunc2 f (np.Arr l1) (np.Arr l2) = Raise ValueError.
Proof.
  intros H12 H1 H2. unfold np.ufunc2.
  destruct (Nat.eqb_spec (length l1) (length l2)) as [E|_]; [contradiction|].
  destruct l1 as [|a [|a' l1]]; destruct l2 as [|c [|c' l2]];
    simpl in *; try reflexivity; congruence.
Qed.

Lemma zip_with_length (f : R -> R -> R) (l1 l2 : list R) :
  length l1 = length l2 -> length (np.zip_with f l1 l2) = length l1.
Proof.
  revert l2. induction l1 as [|a l1 IH]; intros [|c l2] H; simpl in *;
    try reflexivity; try discriminate.
  f_equal. apply IH. now injection H.
Qed.

Lemma ufunc2_same_length (f : R -> R -> R) (l1 l2 : list R) :
  length l1 = length l2 ->
  np.ufunc2 f (np.Arr l1) (np.Arr l2) = Ok (np.Arr (np.zip_with f l1 l2)).
Proof.
  intros H. unfold np.ufunc2. now rewrite H, Nat.eqb_refl.
Qed.

(** X6.  Called on coordinate arrays whose lengths differ, none of them of
    length one, both fields raise [ValueError]: when [x] and [y] differ,
    whatever [z] is, and when [x] and [y] agree and [z] differs. *)
Theorem tpms_call_shape_mismatch (b : ScalarField) (t : R)
  (xs ys zs : list R)
  (Hx : length xs <> 1%nat) (Hy : length ys <> 1%nat)
  (Hz : length zs <> 1%nat) :
  let g := {| Gyroid_base := b; Gyroid_thickness := t |} in
  let p := {| SchwarzP_base := b; SchwarzP_thickness := t |} in
  (length xs <> length ys ->
   forall z : np.ndarray,
     call g (np.Arr xs) (np.Arr ys) z = Raise ValueError
     /\ call p (np.Arr xs) (np.Arr ys) z = Raise ValueError)
  /\ (length xs = length ys -> length ys <> length zs ->
      call g (np.Arr xs) (np.Arr ys) (np.Arr zs) = Raise ValueError
      /\ call p (np.Arr xs) (np.Arr ys) (np.Arr zs) = Raise ValueError).
Proof.
  cbn zeta. split.
  - intros Hxy z. rewrite !call_affine. unfold affine.
    cbn [evaluate Gyroid_Field SchwarzP_Field np.ufunc1 base].
    unfold Gyroid_evaluate, SchwarzP_evaluate, np.multiply, np.add,
      np.sin, np.cos. cbn [np.ufunc1].
    rewrite !ufunc2_mismatch by (rewrite ?length_map; assumption).
    split; reflexivity.
  - intros Hxy Hyz. rewrite !call_affine. unfold affine.
    cbn [evaluate Gyroid_Field SchwarzP_Field np.ufunc1 base].
    unfold Gyroid_evaluate, SchwarzP_evaluate, np.multiply, np.add,
      np.sin, np.cos. cbn [np.ufunc1].
    split.
    + rewrite (ufunc2_same_length Rmult (map sin _) (map cos (map _ ys)))
        by (rewrite !length_map; assumption).
      rewrite (ufunc2_mismatch Rmult (map sin _) (map cos (map _ zs)))
        by (rewrite ?length_map; assumption).
      reflexivity.
    + rewrite (ufunc2_same_length Rplus (map cos _) (map cos (map _ ys)))
        by (rewrite !length_map; assumption).
      cbn [Py.bind].
      rewrite ufunc2_mismatch; [reflexivity| | |];
        rewrite ?zip_with_length, ?length_map;
        rewrite ?length_map; try assumption; congruence.
Qed.

(** Two coordinates of two entries and a third of three. *)
Lemma tpms_call_shape_mismatch_witness :
  length [1; 2] <> 1%nat /\ length [1; 2] <> 1%nat
  /\ length [1; 2; 3] <> 1%nat
  /\ length [1; 2] = length [1; 2]
  /\ length [1; 2] <> length [1; 2; 3]
  /\ call (Gyroid_init 1 0) (np.Arr [1; 2]) (np.Arr [1; 2])
       (np.Arr [1; 2; 3])
     = Raise ValueError.
Proof.
  assert (H2 : length [1; 2] <> 1%nat) by (simpl; lia).
  assert (H3 : length [1; 2; 3] <> 1%nat) by (simpl; lia).
  assert (He : length [1; 2] = length [1; 2]) by reflexivity.
  assert (Hn : length [1; 2] <> length [1; 2; 3]) by (simpl; lia).
  repeat (split; [assumption|]).
  exact (proj1 (proj2 (tpms_call_shape_mismatch
                         {| scale := 1; offset := default_offset |} 0
                         [1; 2] [1; 2] [1; 2; 3] H2 H2 H3) He Hn)).
Defined.

(** ** Evaluation on a grid *)

Lemma rows_length (a b c : list R) :
  length a = length b -> length b = length c ->
  length (np.rows a b c) = length a.
Proof.
  revert b c. induction a as [|u a IH]; intros [|v b] [|w c] Hab Hbc;
    simpl in *; try reflexivity; try discriminate.
  f_equal. apply IH; congruence.
Qed.

Lemma rows_columns (a b c : list R) :
  length a = length b -> length b = length c ->
  map px (np.rows a b c) = a
  /\ map py (np.rows a b c) = b
  /\ map pz (np.rows a b c) = c.
Proof.
  revert b c. induction a as [|u a IH]; intros [|v b] [|w c] Hab Hbc;
    simpl in *; try discriminate; [repeat split|].
  destruct (IH b c) as (Ha & Hb & Hc); [congruence | congruence |].
  unfold px, py, pz in *. simpl. rewrite Ha, Hb, Hc. repeat split.
Qed.

(** The transformed point of the callable form. *)
Lemma affine_columns (b : ScalarField) (pts : list (R * R * R)) :
  let T := fun p : R * R * R =>
             (px p * scale b + offset_0 (offset b),
              py p * scale b + offset_1 (offset b),
              pz p * scale b + offset_2 (offset b)) in
  affine (scale b) (offset_0 (offset b)) (np.Arr (map px pts))
  = np.Arr (map px (map T pts))
  /\ affine (scale b) (offset_1 (offset b)) (np.Arr (map py pts))
     = np.Arr (map py (map T pts))
  /\ affine (scale b) (offset_2 (offset b)) (np.Arr (map pz pts))
     = np.Arr (map pz (map T pts)).
Proof.
  cbn zeta. unfold affine. rewrite !ufunc1_pointwise, !map_map.
  repeat split.
Qed.

Section GridEvaluation.

Context {T : Type} `{Field T}.

Variable self : T.

(** The value of the field on one point. *)
Variable value : R * R * R -> R.

Hypothesis call_point :
  forall p : R * R * R,
    call self (np.Scalar (px p)) (np.Scalar (py p)) (np.Scalar (pz p))
    = Ok (np.Scalar (value p)).

Hypothesis call_points :
  forall pts : list (R * R * R),
    call self (np.Arr (map px pts)) (np.Arr (map py pts))
      (np.Arr (map pz pts))
    = Ok (np.Arr (map value pts)).

(** For a field that acts point by point, [evaluate_grid] at a resolution
    [n >= 0] returns [n * n * n] rows and as many values, the value in each
    position being the field on the row in that position. *)
Lemma evaluate_grid_pointwise (x_range y_range z_range : R * R) (n : Z) :
  (0 <= n)%Z ->
  exists (coords : list (R * R * R)) (values : list R),
    evaluate_grid self x_range y_range z_range n
    = Ok (coords, np.Arr values)
    /\ length coords = (Z.to_nat n * Z.to_nat n * Z.to_nat n)%nat
    /\ length values = length coords
    /\ forall (i : nat) (p : R * R * R),
         nth_error coords i = Some p ->
         exists v : R,
           nth_error values i = Some v
           /\ call self (np.Scalar (px p)) (np.Scalar (py p))
                (np.Scalar (pz p))
              = Ok (np.Scalar v).
Proof.
  intros Hn. unfold evaluate_grid.
  destruct (linspace_ok (fst x_range) (snd x_range) n Hn) as (x & -> & Hx).
  destruct (linspace_ok (fst y_range) (snd y_range) n Hn) as (y & -> & Hy).
  destruct (linspace_ok (fst z_range) (snd z_range) n Hn) as (z & -> & Hz).
  cbn [Py.bind].
  pose proof (meshgrid_length x y z) as Hlen.
  destruct (np.meshgrid x y z) as [[X Y] Z].
  destruct Hlen as (HX & HY & HZ).
  assert (HXY : length X = length Y) by congruence.
  assert (HYZ : length Y = length Z) by congruence.
  unfold np.stack_axis1. rewrite HXY, HYZ, !Nat.eqb_refl.
  cbn [andb Py.bind].
  destruct (rows_columns X Y Z HXY HYZ) as (EX & EY & EZ).
  replace (call self (np.Arr X) (np.Arr Y) (np.Arr Z))
    with (call self (np.Arr (map px (np.rows X Y Z)))
            (np.Arr (map py (np.rows X Y Z)))
            (np.Arr (map pz (np.rows X Y Z))))
    by (rewrite EX, EY, EZ; reflexivity).
  rewrite call_points. cbn [Py.bind].
  exists (np.rows X Y Z), (map value (np.rows X Y Z)).
  split; [reflexivity|].
  split; [rewrite rows_length by assumption; congruence|].
  split; [apply length_map|].
  intros i p Hp. exists (value p).
  split; [|apply call_point].
  rewrite nth_error_map, Hp. reflexivity.
Qed.

End GridEvaluation.

Lemma Gyroid_call_point (b : ScalarField) (t : R) (p : R * R * R) :
  call {| Gyroid_base := b; Gyroid_thickness := t |}
    (np.Scalar (px p)) (np.Scalar (py p)) (np.Scalar (pz p))
  = Ok (np.Scalar (gyroid_value b t p)).
Proof. rewrite Gyroid_call_scalar, Gyroid_evaluate_scalar. reflexivity. Qed.

Lemma Gyroid_call_points (b : ScalarField) (t : R)
  (pts : list (R * R * R)) :
  call {| Gyroid_base := b; Gyroid_thickness := t |}
    (np.Arr (map px pts)) (np.Arr (map py pts)) (np.Arr (map pz pts))
  = Ok (np.Arr (map (gyroid_value b t) pts)).
Proof.
  rewrite call_affine. cbn [base Gyroid_Field Gyroid_base evaluate].
  destruct (affine_columns b pts) as (-> & -> & ->).
  rewrite Gyroid_evaluate_points, map_map. reflexivity.
Qed.

Lemma SchwarzP_call_point (b : ScalarField) (t : R) (p : R * R * R) :
  call {| SchwarzP_base := b; SchwarzP_thickness := t |}
    (np.Scalar (px p)) (np.Scalar (py p)) (np.Scalar (pz p))
  = Ok (np.Scalar (schwarz_p_value b t p)).
Proof.
  rewrite SchwarzP_call_scalar, SchwarzP_evaluate_scalar. reflexivity.
Qed.

Lemma SchwarzP_call_points (b : ScalarField) (t : R)
  (pts : list (R * R * R)) :
  call {| SchwarzP_base := b; SchwarzP_thickness := t |}
    (np.Arr (map px pts)) (np.Arr (map py pts)) (np.Arr (map pz pts))
  = Ok (np.Arr (map (schwarz_p_value b t) pts)).
Proof.
  rewrite call_affine. cbn [base SchwarzP_Field SchwarzP_base evaluate].
  destruct (affine_columns b pts) as (-> & -> & ->).
  rewrite SchwarzP_evaluate_points, map_map. reflexivity.
Qed.

Lemma evaluate_grid_negative {T : Type} `{Field T} (self : T)
  (x_range y_range z_range : R * R) (n : Z) :
  (n < 0)%Z ->
  evaluate_grid self x_range y_range z_range n = Raise ValueError.
Proof.
  intros Hn. unfold evaluate_grid. now rewrite linspace_negative.
Qed.

(** X7.  [evaluate_grid] of a Gyroid or SchwarzP field at a resolution
    [n >= 0] returns [n * n * n] coordinate rows and as many values, and the
    value in each position is the field called on the row in that position;
    at a negative resolution it raises [ValueError]. *)
Theorem evaluate_grid_tpms (b : ScalarField) (t : R)
  (x_range y_range z_range : R * R) (n : Z) :
  ((0 <= n)%Z ->
   (exists (coords : list (R * R * R)) (values : list R),
      evaluate_grid {| Gyroid_base := b; Gyroid_thickness := t |}
        x_range y_range z_range n
      = Ok (coords, np.Arr values)
      /\ length coords = (Z.to_nat n * Z.to_nat n * Z.to_nat n)%nat
      /\ length values = length coords
      /\ forall (i : nat) (p : R * R * R),
           nth_error coords i = Some p ->
           exists v : R,
             nth_error values i = Some v
             /\ call {| Gyroid_base := b; Gyroid_thickness := t |}
                  (np.Scalar (px p)) (np.Scalar (py p)) (np.Scalar (pz p))
                = Ok (np.Scalar v))
   /\ (exists (coords : list (R * R * R)) (values : list R),
         evaluate_grid {| SchwarzP_base := b; SchwarzP_thickness := t |}
           x_range y_range z_range n
         = Ok (coords, np.Arr values)
         /\ length coords = (Z.to_nat n * Z.to_nat n * Z.to_nat n)%nat
         /\ length values = length coords
         /\ forall (i : nat) (p : R * R * R),
              nth_error coords i = Some p ->
              exists v : R,
                nth_error values i = Some v
                /\ call {| SchwarzP_base := b; SchwarzP_thickness := t |}
                     (np.Scalar (px p)) (np.Scalar (py p))
                     (np.Scalar (pz p))
                   = Ok (np.Scalar v)))
  /\ ((n < 0)%Z ->
      evaluate_grid {| Gyroid_base := b; Gyroid_thickness := t |}
        x_range y_range z_range n = Raise ValueError
      /\ evaluate_grid {| SchwarzP_base := b; SchwarzP_thickness := t |}
           x_range y_range z_range n = Raise ValueError).
Proof.
  split.
  - intros Hn. split.
    + apply (evaluate_grid_pointwise
               {| Gyroid_base := b; Gyroid_thickness := t |}
               (gyroid_value b t) (Gyroid_call_point b t)
               (Gyroid_call_points b t) x_range y_range z_range n Hn).
    + apply (evaluate_grid_pointwise
               {| SchwarzP_base := b; SchwarzP_thickness := t |}
               (schwarz_p_value b t) (SchwarzP_call_point b t)
               (SchwarzP_call_points b t) x_range y_range z_range n Hn).
  - intros Hn. split; apply evaluate_grid_negative; exact Hn.
Qed.

(** The grid of [test_grid_evaluation], resolution 5 on [(-1, 1)] cubed, for
    the Gyroid: 125 rows. *)
Lemma evaluate_grid_tpms_witness :
  (0 <= 5)%Z
  /\ exists (coords : list (R * R * R)) (values : list R),
       evaluate_grid (Gyroid_init 1 0) (-1, 1) (-1, 1) (-1, 1) 5
       = Ok (coords, np.Arr values)
       /\ length coords = 125%nat
       /\ length values = length coords.
Proof.
  assert (Hn : (0 <= 5)%Z) by lia.
  split; [exact Hn|].
  destruct (proj1 (proj1 (evaluate_grid_tpms
                            {| scale := 1; offset := default_offset |} 0
                            (-1, 1) (-1, 1) (-1, 1) 5) Hn))
    as (coords & values & He & Hc & Hv & _).
  exists coords, values. repeat split; assumption.
Defined.

(* ===================================================================== *)
(** * The custom fields of [examples/custom_field.py] *)
(* ===================================================================== *)












(** X10.  [SinusoidalField]: for every scale and offset the field takes its
    values in [[-1, 1]], and on coordinate sequences of equal length it
    returns as many values as there are points. *)
Theorem SinusoidalField_range (b : ScalarField) (x y z : R)
  (pts : list (R * R * R)) :
  (exists v : R,
     call {| SinusoidalField_base := b |}
       (np.Scalar x) (np.Scalar y) (np.Scalar z) = Ok (np.Scalar v)
     /\ - 1 <= v <= 1)
  /\ exists values : list R,
       call {| SinusoidalField_base := b |}
         (np.Arr (map px pts)) (np.Arr (map py pts)) (np.Arr (map pz pts))
       = Ok (np.Arr values)
       /\ length values = length pts.
Proof.
  split.
  - rewrite call_affine. eexists. split; [reflexivity|].
    set (u := x * scale b + offset_0 (offset b)).
    set (v := y * scale b + offset_1 (offset b)).
    set (w := z * scale b + offset_2 (offset b)).
    cbn [base SinusoidalField_Field SinusoidalField_base].
    fold u v w.
    pose proof (SIN_bound u) as Hu. pose proof (COS_bound v) as Hv.
    pose proof (SIN_bound w) as Hw.
    assert (Huv : - 1 <= sin u * cos v <= 1) by (split; nra).
    split; nra.
  - rewrite call_affine.
    cbn [base SinusoidalField_Field SinusoidalField_base evaluate].
    destruct (affine_columns b pts) as (-> & -> & ->).
    unfold SinusoidalField_evaluate, np.sin, np.cos, np.multiply.
    rewrite !ufunc1_pointwise.
    repeat (rewrite ufunc2_pointwise; cbn [Py.bind]).
    eexists. split; [reflexivity|].
    rewrite !length_map. reflexivity.
Qed.

(* ===================================================================== *)
(** * Further properties of the industrial analysis *)
(* ===================================================================== *)

(** ** Referenced vertices and bounds *)

Lemma referenced_vertices_length (m : trimesh.Trimesh) :
  length (trimesh.referenced_vertices m) = length (trimesh.vertices m).
Proof.
  unfold trimesh.referenced_vertices. now rewrite length_map, length_seq.
Qed.

Lemma referenced_vertices_nth (m : trimesh.Trimesh) (i : nat) :
  (i < length (trimesh.vertices m))%nat ->
  nth i (trimesh.referenced_vertices m) false
  = existsb (trimesh.face_uses i) (trimesh.faces m).
Proof.
  intros Hi. unfold trimesh.referenced_vertices.
  rewrite (nth_indep _ false
             (existsb (trimesh.face_uses 0) (trimesh.faces m)))
    by (rewrite length_map, length_seq; exact Hi).
  rewrite (map_nth (fun i => existsb (trimesh.face_uses i) (trimesh.faces m))).
  rewrite seq_nth by exact Hi. reflexivity.
Qed.

Lemma select_In {A : Type} (l : list A) (mask : list bool) (i : nat) (d : A) :
  length mask = length l -> (i < length l)%nat ->
  nth i mask false = true ->
  In (nth i l d) (trimesh.select l mask).
Proof.
  revert mask i. induction l as [|a l IH]; intros [|b mask] i Hlen Hi Hb;
    simpl in *; try lia; try discriminate.
  destruct i as [|i].
  - subst b. left. reflexivity.
  - assert (In (nth i l d) (trimesh.select l mask))
      by (apply IH; [lia | lia | exact Hb]).
    destruct b; [right|]; assumption.
Qed.

Lemma select_no_reference {A : Type} (l : list A) (mask : list bool) :
  Forall (fun b : bool => b = false) mask -> trimesh.select l mask = [].
Proof.
  revert l. induction mask as [|b mask IH]; intros [|a l] H;
    try reflexivity.
  inversion H as [|? ? Hb Hrest]; subst. simpl. now apply IH.
Qed.

Lemma no_faces_no_bounds (m : trimesh.Trimesh) :
  trimesh.faces m = [] -> trimesh.bounds m = None.
Proof.
  intros Hf. unfold trimesh.bounds.
  rewrite select_no_reference; [reflexivity|].
  unfold trimesh.referenced_vertices. rewrite Hf.
  apply Forall_forall. intros b Hb.
  apply in_map_iff in Hb. destruct Hb as (i & <- & _). reflexivity.
Qed.

(** A corner of a face of a well-formed mesh is a referenced vertex. *)
Lemma corner_referenced (m : trimesh.Trimesh) (f : trimesh.face) (i : nat) :
  In f (trimesh.faces m) -> trimesh.face_uses i f = true ->
  (i < length (trimesh.vertices m))%nat ->
  In (nth i (trimesh.vertices m) trimesh.origin3)
     (trimesh.select (trimesh.vertices m) (trimesh.referenced_vertices m)).
Proof.
  intros Hf Hu Hi. apply select_In.
  - apply referenced_vertices_length.
  - exact Hi.
  - rewrite referenced_vertices_nth by exact Hi.
    apply existsb_exists. exists f. split; assumption.
Qed.

Lemma faces_give_bounds (m : trimesh.Trimesh) :
  trimesh.well_formed m = true -> trimesh.faces m <> [] ->
  exists lo hi : trimesh.vec3, trimesh.bounds m = Some (lo, hi).
Proof.
  intros Hwf Hf.
  destruct (trimesh.faces m) as [|f fs] eqn:Efs; [contradiction|].
  destruct f as [[a b] c].
  assert (Ha : (a < length (trimesh.vertices m))%nat).
  { unfold trimesh.well_formed in Hwf. rewrite Efs in Hwf.
    simpl in Hwf. apply andb_prop in Hwf. destruct Hwf as [Hwf _].
    apply andb_prop in Hwf. destruct Hwf as [Hwf _].
    apply andb_prop in Hwf. destruct Hwf as [Hwf _].
    now apply Nat.ltb_lt in Hwf. }
  assert (Hin : In (nth a (trimesh.vertices m) trimesh.origin3)
                  (trimesh.select (trimesh.vertices m)
                     (trimesh.referenced_vertices m))).
  { apply (corner_referenced m (a, b, c) a).
    - rewrite Efs. left. reflexivity.
    - simpl. now rewrite Nat.eqb_refl.
    - exact Ha. }
  unfold trimesh.bounds.
  destruct (trimesh.select (trimesh.vertices m)
              (trimesh.referenced_vertices m)) as [|v vs];
    [contradiction | eauto].
Qed.

(** X11.  For a mesh whose faces index existing vertices, [analyze_geometry]
    (like [calculate_bounding_box] and [calculate_dimensions]) returns a
    report exactly when the mesh has a face; for a mesh without faces, with
    or without vertices, all three raise [TypeError]. *)
Theorem analyze_geometry_needs_a_face (m : trimesh.Trimesh)
  (Hwf : trimesh.well_formed m = true) :
  (trimesh.faces m = [] ->
   industrial.calculate_bounding_box m = Raise TypeError
   /\ industrial.calculate_dimensions m = Raise TypeError
   /\ industrial.analyze_geometry m = Raise TypeError)
  /\ (trimesh.faces m <> [] ->
      exists (bb : industrial.BoundingBox) (d : industrial.Dimensions)
             (r : industrial.Analysis),
        industrial.calculate_bounding_box m = Ok bb
        /\ industrial.calculate_dimensions m = Ok d
        /\ industrial.analyze_geometry m = Ok r
        /\ industrial.bbox r = bb
        /\ industrial.dimensions r = d).
Proof.
  split.
  - intros Hf. apply no_faces_no_bounds in Hf.
    unfold industrial.analyze_geometry, industrial.calculate_dimensions,
      industrial.calculate_bounding_box.
    rewrite Hf. repeat split.
  - intros Hf. destruct (faces_give_bounds m Hwf Hf) as (lo & hi & Hb).
    rewrite (analyze_geometry_bounded m lo hi Hb).
    unfold industrial.calculate_dimensions,
      industrial.calculate_bounding_box.
    rewrite Hb. cbn [Py.bind].
    do 3 eexists. repeat split.
Qed.

(** A point cloud (vertices, no face) raises; one triangle is analysed. *)
Lemma analyze_geometry_needs_a_face_witness :
  trimesh.well_formed single_triangle = true
  /\ trimesh.faces single_triangle <> []
  /\ exists r : industrial.Analysis,
       industrial.analyze_geometry single_triangle = Ok r.
Proof.
  assert (Hwf : trimesh.well_formed single_triangle = true) by reflexivity.
  assert (Hf : trimesh.faces single_triangle <> []) by discriminate.
  split; [exact Hwf|]. split; [exact Hf|].
  destruct (proj2 (analyze_geometry_needs_a_face single_triangle Hwf) Hf)
    as (bb & d & r & _ & _ & Hr & _).
  exists r. exact Hr.
Defined.

(** ** The bounding box encloses the mesh *)

Lemma vmin_below (a b : trimesh.vec3) :
  below (trimesh.vmin a b) a /\ below (trimesh.vmin a b) b.
Proof.
  unfold below, trimesh.vmin, trimesh.vx, trimesh.vy, trimesh.vz. simpl.
  repeat split; first [apply Rmin_l | apply Rmin_r].
Qed.

Lemma vmax_above (a b : trimesh.vec3) :
  below a (trimesh.vmax a b) /\ below b (trimesh.vmax a b).
Proof.
  unfold below, trimesh.vmax, trimesh.vx, trimesh.vy, trimesh.vz. simpl.
  repeat split; first [apply Rmax_l | apply Rmax_r].
Qed.

Lemma below_trans (a b c : trimesh.vec3) : below a b -> below b c -> below a c.
Proof. unfold below. intros (? & ? & ?) (? & ? & ?). repeat split; lra. Qed.

Lemma fold_vmin_below (l : list trimesh.vec3) (a : trimesh.vec3) :
  below (fold_left trimesh.vmin l a) a
  /\ forall v, In v l -> below (fold_left trimesh.vmin l a) v.
Proof.
  revert a. induction l as [|b l IH]; intros a; simpl.
  - split; [unfold below; lra | contradiction].
  - destruct (IH (trimesh.vmin a b)) as [Ha Hl].
    destruct (vmin_below a b) as [Hva Hvb].
    split; [eapply below_trans; eassumption|].
    intros v [<-|Hv]; [eapply below_trans; eassumption | now apply Hl].
Qed.

Lemma fold_vmax_above (l : list trimesh.vec3) (a : trimesh.vec3) :
  below a (fold_left trimesh.vmax l a)
  /\ forall v, In v l -> below v (fold_left trimesh.vmax l a).
Proof.
  revert a. induction l as [|b l IH]; intros a; simpl.
  - split; [unfold below; lra | contradiction].
  - destruct (IH (trimesh.vmax a b)) as [Ha Hl].
    destruct (vmax_above a b) as [Hva Hvb].
    split; [eapply below_trans; eassumption|].
    intros v [<-|Hv]; [eapply below_trans; eassumption | now apply Hl].
Qed.

Lemma bounds_enclose (m : trimesh.Trimesh) (lo hi v : trimesh.vec3) :
  trimesh.bounds m = Some (lo, hi) ->
  In v (trimesh.select (trimesh.vertices m) (trimesh.referenced_vertices m)) ->
  below lo v /\ below v hi.
Proof.
  unfold trimesh.bounds.
  destruct (trimesh.select _ _) as [|a l]; [discriminate|].
  intros E Hv. injection E as <- <-.
  destruct (fold_vmin_below l a) as [Hmin_a Hmin_l].
  destruct (fold_vmax_above l a) as [Hmax_a Hmax_l].
  destruct Hv as [<-|Hv]; split; auto.
Qed.

Lemma face_in_range_corners (n : nat) (a b c : nat) :
  trimesh.face_in_range n (a, b, c) = true -> (a < n /\ b < n /\ c < n)%nat.
Proof.
  unfold trimesh.face_in_range. intros H.
  apply andb_prop in H. destruct H as [H Hc].
  apply andb_prop in H. destruct H as [Ha Hb].
  apply Nat.ltb_lt in Ha, Hb, Hc. tauto.
Qed.

(** X12.  When [calculate_bounding_box] returns a box for a mesh whose faces
    index existing vertices, every corner of every triangle of the mesh lies
    in that box, and [calculate_dimensions] returns its three extents, none
    of them negative. *)
Theorem bounding_box_encloses (m : trimesh.Trimesh)
  (bb : industrial.BoundingBox)
  (Hwf : trimesh.well_formed m = true)
  (Hbb : industrial.calculate_bounding_box m = Ok bb) :
  (forall v0 v1 v2 : trimesh.vec3,
     In (v0, v1, v2) (trimesh.triangles m) ->
     inside bb v0 /\ inside bb v1 /\ inside bb v2)
  /\ exists d : industrial.Dimensions,
       industrial.calculate_dimensions m = Ok d
       /\ industrial.width d
          = snd (industrial.x bb) - fst (industrial.x bb)
       /\ industrial.height d
          = snd (industrial.y bb) - fst (industrial.y bb)
       /\ industrial.depth d
          = snd (industrial.z bb) - fst (industrial.z bb)
       /\ 0 <= industrial.width d
       /\ 0 <= industrial.height d
       /\ 0 <= industrial.depth d.
Proof.
  unfold industrial.calculate_bounding_box in Hbb.
  destruct (trimesh.bounds m) as [[lo hi]|] eqn:Hb; [|discriminate].
  injection Hbb as <-.
  assert (Hin : forall v,
             In v (trimesh.select (trimesh.vertices m)
                     (trimesh.referenced_vertices m)) ->
             inside
               {| industrial.x := (trimesh.vx lo, trimesh.vx hi);
                  industrial.y := (trimesh.vy lo, trimesh.vy hi);
                  industrial.z := (trimesh.vz lo, trimesh.vz hi) |} v).
  { intros v Hv. destruct (bounds_enclose m lo hi v Hb Hv) as [Hl Hh].
    unfold below in Hl, Hh. unfold inside. simpl. tauto. }
  split.
  - intros v0 v1 v2 Ht.
    unfold trimesh.triangles in Ht. apply in_map_iff in Ht.
    destruct Ht as ([[a b] c] & Et & Hf).
    simpl in Et. injection Et as <- <- <-.
    assert (Hr : trimesh.face_in_range (length (trimesh.vertices m))
                   (a, b, c) = true).
    { unfold trimesh.well_formed in Hwf.
      rewrite forallb_forall in Hwf. now apply Hwf. }
    apply face_in_range_corners in Hr. destruct Hr as (Ha & Hb' & Hc).
    repeat split; apply Hin;
      apply (corner_referenced m (a, b, c)); try assumption;
      simpl; rewrite Nat.eqb_refl, ?orb_true_r; reflexivity.
  - unfold industrial.calculate_dimensions,
      industrial.calculate_bounding_box.
    rewrite Hb. cbn [Py.bind]. eexists. split; [reflexivity|].
    cbn. repeat split.
    all: unfold trimesh.bounds in Hb;
      destruct (trimesh.select _ _) as [|a l]; [discriminate|];
      injection Hb as <- <-;
      destruct (fold_vmin_below l a) as [(? & ? & ?) _];
      destruct (fold_vmax_above l a) as [(? & ? & ?) _]; lra.
Qed.

Lemma bounding_box_encloses_witness :
  industrial.calculate_bounding_box single_triangle
  = Ok {| industrial.x := (0, 1); industrial.y := (0, 1);
          industrial.z := (0, 0) |}
  /\ inside {| industrial.x := (0, 1); industrial.y := (0, 1);
               industrial.z := (0, 0) |} (1, 0, 0).
Proof.
  assert (Hwf : trimesh.well_formed single_triangle = true) by reflexivity.
  assert (Hbb : industrial.calculate_bounding_box single_triangle
                = Ok {| industrial.x := (0, 1); industrial.y := (0, 1);
                        industrial.z := (0, 0) |}).
  { unfold industrial.calculate_bounding_box, trimesh.bounds, single_triangle.
    cbn.
    unfold trimesh.vmin, trimesh.vmax, trimesh.vx, trimesh.vy, trimesh.vz. cbn.
    rminmax. reflexivity. }
  split; [exact Hbb|].
  destruct (bounding_box_encloses single_triangle _ Hwf Hbb) as [Hin _].
  destruct (Hin (0, 0, 0) (1, 0, 0) (0, 1, 0)) as (_ & H1 & _).
  - left. reflexivity.
  - exact H1.
Defined.

(** ** Volumes, areas and masses are never negative *)

Lemma sum_nonneg (l : list R) :
  Forall (fun v => 0 <= v) l -> 0 <= trimesh.sum l.
Proof.
  induction 1 as [|v l Hv _ IH]; simpl; lra.
Qed.

Lemma triangle_area_nonneg (t : trimesh.vec3 * trimesh.vec3 * trimesh.vec3) :
  0 <= trimesh.triangle_area t.
Proof.
  destruct t as [[v0 v1] v2]. unfold trimesh.triangle_area, trimesh.norm.
  pose proof (sqrt_pos
    (trimesh.dot (trimesh.cross (trimesh.vsub v1 v0) (trimesh.vsub v2 v0))
       (trimesh.cross (trimesh.vsub v1 v0) (trimesh.vsub v2 v0)))).
  lra.
Qed.

Lemma area_nonneg (m : trimesh.Trimesh) : 0 <= trimesh.area m.
Proof.
  unfold trimesh.area. apply sum_nonneg.
  apply Forall_forall. intros a Ha.
  apply in_map_iff in Ha. destruct Ha as (t & <- & _).
  apply triangle_area_nonneg.
Qed.

Lemma solid_volume_nonneg (m : trimesh.Trimesh) :
  0 <= (if trimesh.is_volume m then trimesh.volume m else 0).
Proof.
  destruct (trimesh.is_volume m) eqn:E; [|lra].
  apply is_volume_positive in E. lra.
Qed.

(** X13.  Whatever the mesh, the wall thickness and the (non-negative)
    density, [calculate_volume] and [estimate_material_usage] return, and
    none of the volume, the material volume and the mass is negative; the
    volume and the surface area of a report of [analyze_geometry] are not
    negative either. *)
Theorem material_usage_never_negative (m : trimesh.Trimesh) (d : R)
  (w : option R) (Hd : 0 <= d) :
  (exists (v : R) (u : industrial.MaterialUsage),
     industrial.calculate_volume m = Ok v
     /\ 0 <= v
     /\ industrial.estimate_material_usage m d w = Ok u
     /\ industrial.usage_volume u = v
     /\ 0 <= industrial.material_volume u
     /\ 0 <= industrial.mass u)
  /\ (forall r : industrial.Analysis,
        industrial.analyze_geometry m = Ok r ->
        0 <= industrial.volume r /\ 0 <= industrial.surface_area r).
Proof.
  pose proof (solid_volume_nonneg m) as Hv.
  pose proof (area_nonneg m) as Ha.
  split.
  - exists (if trimesh.is_volume m then trimesh.volume m else 0).
    unfold industrial.estimate_material_usage.
    rewrite calculate_volume_spec. cbn [Py.bind].
    eexists. split; [reflexivity|]. split; [exact Hv|].
    split; [reflexivity|]. cbn.
    assert (Hmat : 0 <= match w with
                        | Some w0 =>
                            if Rlt_dec 0 w0 then trimesh.area m * w0
                            else if trimesh.is_volume m
                                 then trimesh.volume m else 0
                        | None =>
                            if trimesh.is_volume m
                            then trimesh.volume m else 0
                        end).
    { destruct w as [w0|]; [|exact Hv].
      destruct (Rlt_dec 0 w0); [|exact Hv]. nra. }
    split; [reflexivity|]. split; [exact Hmat|].
    apply Rmult_le_pos; [|exact Hd]. lra.
  - intros r Hr. unfold industrial.analyze_geometry in Hr.
    destruct (industrial.calculate_bounding_box m); [|discriminate].
    cbn [Py.bind] in Hr.
    destruct (industrial.calculate_dimensions m); [|discriminate].
    cbn [Py.bind] in Hr. rewrite calculate_volume_spec in Hr.
    cbn [Py.bind] in Hr. injection Hr as <-. cbn. split; assumption.
Qed.

Lemma material_usage_never_negative_witness :
  0 <= 1
  /\ exists u : industrial.MaterialUsage,
       industrial.estimate_material_usage single_triangle 1 (Some 2) = Ok u
       /\ 0 <= industrial.mass u.
Proof.
  assert (Hd : 0 <= 1) by lra.
  split; [exact Hd|].
  destruct (proj1 (material_usage_never_negative single_triangle 1 (Some 2) Hd))
    as (v & u & _ & _ & Hu & _ & _ & Hm).
  exists u. split; [exact Hu | exact Hm].
Defined.

(** ** The report on a box *)

Lemma box_bounds (ex ey ez : R) :
  0 < ex -> 0 < ey -> 0 < ez ->
  trimesh.bounds (box ex ey ez)
  = Some ((- ex / 2, - ey / 2, - ez / 2), (ex / 2, ey / 2, ez / 2)).
Proof.
  intros Hx Hy Hz.
  unfold trimesh.bounds, box. cbn.
  unfold trimesh.vmin, trimesh.vmax, trimesh.vx, trimesh.vy, trimesh.vz. cbn.
  rminmax.
  do 2 f_equal; repeat (f_equal; try lra).
Qed.

Lemma sqrt_of_square (e y : R) : 0 <= y -> e = y * y -> sqrt e = y.
Proof. intros Hy ->. now apply sqrt_square. Qed.

Lemma box_area (ex ey ez : R) :
  0 < ex -> 0 < ey -> 0 < ez ->
  trimesh.area (box ex ey ez) = 2 * (ex * ey + ey * ez + ez * ex).
Proof.
  intros Hx Hy Hz.
  assert (Hxy : 0 <= ex * ey) by nra.
  assert (Hyz : 0 <= ey * ez) by nra.
  assert (Hzx : 0 <= ez * ex) by nra.
  unfold trimesh.area, trimesh.triangles, box. cbn.
  unfold trimesh.triangle_area, trimesh.norm, trimesh.dot, trimesh.cross,
    trimesh.vsub, trimesh.vx, trimesh.vy, trimesh.vz. cbn.
  repeat match goal with
    | |- context [sqrt ?e] =>
        first [ rewrite (sqrt_of_square e (ex * ey) Hxy) by ring
              | rewrite (sqrt_of_square e (ey * ez) Hyz) by ring
              | rewrite (sqrt_of_square e (ez * ex) Hzx) by ring ]
    end.
  field.
Qed.

(** X14.  The report on a box of positive extents [ex], [ey], [ez] (the mesh
    the tests use): its volume is [ex * ey * ez], its surface area
    [2 (ex ey + ey ez + ez ex)], its bounding box is centred at the origin,
    its dimensions are the extents, it is watertight and a volume, and it
    has 8 vertices, 12 faces and 36 directed edges. *)
Theorem report_on_box (ex ey ez : R)
  (Hx : 0 < ex) (Hy : 0 < ey) (Hz : 0 < ez) :
  industrial.calculate_volume (box ex ey ez) = Ok (ex * ey * ez)
  /\ industrial.calculate_bounding_box (box ex ey ez)
     = Ok {| industrial.x := (- ex / 2, ex / 2);
             industrial.y := (- ey / 2, ey / 2);
             industrial.z := (- ez / 2, ez / 2) |}
  /\ exists (d : industrial.Dimensions) (r : industrial.Analysis),
       industrial.calculate_dimensions (box ex ey ez) = Ok d
       /\ industrial.width d = ex
       /\ industrial.height d = ey
       /\ industrial.depth d = ez
       /\ industrial.analyze_geometry (box ex ey ez) = Ok r
       /\ industrial.volume r = ex * ey * ez
       /\ industrial.surface_area r = 2 * (ex * ey + ey * ez + ez * ex)
       /\ industrial.dimensions r = d
       /\ industrial.is_watertight r = true
       /\ industrial.is_volume r = true
       /\ industrial.vertex_count r = 8%nat
       /\ industrial.face_count r = 12%nat
       /\ industrial.edge_count r = 36%nat.
Proof.
  assert (Hv : 0 < ex * ey * ez).
  { apply Rmult_lt_0_compat; [apply Rmult_lt_0_compat|]; assumption. }
  assert (Hvol : industrial.calculate_volume (box ex ey ez)
                 = Ok (ex * ey * ez)).
  { rewrite calculate_volume_spec, box_is_volume, box_volume by exact Hv.
    reflexivity. }
  assert (Hbb : industrial.calculate_bounding_box (box ex ey ez)
                = Ok {| industrial.x := (- ex / 2, ex / 2);
                        industrial.y := (- ey / 2, ey / 2);
                        industrial.z := (- ez / 2, ez / 2) |}).
  { unfold industrial.calculate_bounding_box.
    rewrite (box_bounds ex ey ez Hx Hy Hz). reflexivity. }
  split; [exact Hvol|]. split; [exact Hbb|].
  unfold industrial.analyze_geometry, industrial.calculate_dimensions.
  rewrite Hbb, Hvol. cbn [Py.bind].
  eexists. eexists. split; [reflexivity|]. cbn.
  split; [lra|]. split; [lra|]. split; [lra|].
  split; [reflexivity|]. cbn.
  split; [reflexivity|].
  split; [exact (box_area ex ey ez Hx Hy Hz)|].
  split; [reflexivity|].
  split; [exact (box_is_watertight ex ey ez)|].
  split; [exact (box_is_volume ex ey ez Hv)|].
  repeat split.
Qed.

Lemma report_on_box_witness :
  0 < 2 /\ 0 < 3 /\ 0 < 4
  /\ industrial.calculate_volume (box 2 3 4) = Ok (2 * 3 * 4).
Proof.
  assert (Hx : 0 < 2) by lra.
  assert (Hy : 0 < 3) by lra.
  assert (Hz : 0 < 4) by lra.
  split; [exact Hx|]. split; [exact Hy|]. split; [exact Hz|].
  exact (proj1 (report_on_box 2 3 4 Hx Hy Hz)).
Defined.

(** ** A mesh turned inside out *)

Lemma signed_tetrahedron_reversed (v0 v1 v2 : trimesh.vec3) :
  trimesh.signed_tetrahedron (v2, v1, v0)
  = - trimesh.signed_tetrahedron (v0, v1, v2).
Proof.
  destruct v0 as [[a0 b0] c0], v1 as [[a1 b1] c1], v2 as [[a2 b2] c2].
  unfold trimesh.signed_tetrahedron, trimesh.dot, trimesh.cross,
    trimesh.vx, trimesh.vy, trimesh.vz. cbn. ring.
Qed.

Lemma triangle_area_reversed (v0 v1 v2 : trimesh.vec3) :
  trimesh.triangle_area (v2, v1, v0) = trimesh.triangle_area (v0, v1, v2).
Proof.
  destruct v0 as [[a0 b0] c0], v1 as [[a1 b1] c1], v2 as [[a2 b2] c2].
  unfold trimesh.triangle_area, trimesh.norm. do 2 f_equal.
  unfold trimesh.dot, trimesh.cross, trimesh.vsub,
    trimesh.vx, trimesh.vy, trimesh.vz. cbn. ring.
Qed.

Lemma invert_volume (m : trimesh.Trimesh) :
  trimesh.volume (trimesh.invert m) = - trimesh.volume m.
Proof.
  unfold trimesh.volume.
  assert (E : trimesh.sum (map trimesh.signed_tetrahedron
                             (trimesh.triangles (trimesh.invert m)))
              = - trimesh.sum (map trimesh.signed_tetrahedron
                                 (trimesh.triangles m))).
  { unfold trimesh.triangles, trimesh.invert.
    cbn [trimesh.vertices trimesh.faces].
    induction (trimesh.faces m) as [|[[a b] c] fs IH].
    - cbn. lra.
    - cbn [map trimesh.sum fold_right trimesh.triangle].
      unfold trimesh.sum in IH. rewrite IH.
      rewrite signed_tetrahedron_reversed. lra. }
  rewrite E. lra.
Qed.

Lemma invert_area (m : trimesh.Trimesh) :
  trimesh.area (trimesh.invert m) = trimesh.area m.
Proof.
  unfold trimesh.area, trimesh.triangles, trimesh.invert.
  cbn [trimesh.vertices trimesh.faces].
  rewrite !map_map. f_equal. apply map_ext.
  intros [[a b] c]. cbn [trimesh.triangle]. apply triangle_area_reversed.
Qed.

Lemma invert_referenced_vertices (m : trimesh.Trimesh) :
  trimesh.referenced_vertices (trimesh.invert m)
  = trimesh.referenced_vertices m.
Proof.
  unfold trimesh.referenced_vertices, trimesh.invert. cbn.
  apply map_ext. intros i.
  induction (trimesh.faces m) as [|[[a b] c] fs IH]; [reflexivity|].
  cbn. rewrite IH. f_equal.
  destruct (a =? i)%nat, (b =? i)%nat, (c =? i)%nat; reflexivity.
Qed.

Lemma invert_bounds (m : trimesh.Trimesh) :
  trimesh.bounds (trimesh.invert m) = trimesh.bounds m.
Proof.
  unfold trimesh.bounds. rewrite invert_referenced_vertices. reflexivity.
Qed.

(** X15.  Turning a solid inside out ([mesh.invert()], every face reversed)
    leaves its bounding box, its dimensions and its surface area as they
    were, but the mesh is no longer a volume: [calculate_volume] returns 0
    for it, though the signed volume is the opposite of the solid's. *)
Theorem inverted_solid_has_no_volume (m : trimesh.Trimesh)
  (Hsolid : trimesh.is_volume m = true) :
  trimesh.volume (trimesh.invert m) = - trimesh.volume m
  /\ trimesh.volume (trimesh.invert m) < 0
  /\ trimesh.is_volume (trimesh.invert m) = false
  /\ industrial.calculate_volume (trimesh.invert m) = Ok 0
  /\ industrial.calculate_bounding_box (trimesh.invert m)
     = industrial.calculate_bounding_box m
  /\ industrial.calculate_dimensions (trimesh.invert m)
     = industrial.calculate_dimensions m
  /\ (forall r : industrial.Analysis,
        industrial.analyze_geometry m = Ok r ->
        exists r' : industrial.Analysis,
          industrial.analyze_geometry (trimesh.invert m) = Ok r'
          /\ industrial.volume r' = 0
          /\ industrial.is_volume r' = false
          /\ industrial.surface_area r' = industrial.surface_area r
          /\ industrial.bbox r' = industrial.bbox r
          /\ industrial.dimensions r' = industrial.dimensions r).
Proof.
  pose proof (is_volume_positive m Hsolid) as Hpos.
  pose proof (invert_volume m) as Hinv.
  assert (Hnot : trimesh.is_volume (trimesh.invert m) = false).
  { unfold trimesh.is_volume.
    destruct (Rlt_dec 0 (trimesh.volume (trimesh.invert m))) as [Hlt|_];
      [lra | apply andb_false_r]. }
  assert (Hbb : industrial.calculate_bounding_box (trimesh.invert m)
                = industrial.calculate_bounding_box m).
  { unfold industrial.calculate_bounding_box. now rewrite invert_bounds. }
  assert (Hdim : industrial.calculate_dimensions (trimesh.invert m)
                 = industrial.calculate_dimensions m).
  { unfold industrial.calculate_dimensions. now rewrite Hbb. }
  assert (Hvol : industrial.calculate_volume (trimesh.invert m) = Ok 0).
  { rewrite calculate_volume_spec, Hnot. reflexivity. }
  split; [exact Hinv|]. split; [lra|]. split; [exact Hnot|].
  split; [exact Hvol|]. split; [exact Hbb|]. split; [exact Hdim|].
  intros r Hr. unfold industrial.analyze_geometry in *.
  rewrite Hbb, Hdim, Hvol.
  destruct (industrial.calculate_bounding_box m); [|discriminate].
  cbn [Py.bind] in *.
  destruct (industrial.calculate_dimensions m); [|discriminate].
  cbn [Py.bind] in *. rewrite calculate_volume_spec in Hr.
  cbn [Py.bind] in Hr. injection Hr as <-.
  eexists. split; [reflexivity|]. cbn.
  split; [reflexivity|]. split; [exact Hnot|].
  split; [apply invert_area|]. split; reflexivity.
Qed.

Lemma inverted_solid_has_no_volume_witness :
  trimesh.is_volume (box 2 2 2) = true
  /\ industrial.calculate_volume (trimesh.invert (box 2 2 2)) = Ok 0.
Proof.
  assert (Hsolid : trimesh.is_volume (box 2 2 2) = true).
  { apply box_is_volume. lra. }
  split; [exact Hsolid|].
  destruct (inverted_solid_has_no_volume (box 2 2 2) Hsolid)
    as (_ & _ & _ & Hv & _).
  exact Hv.
Defined.

(* ===================================================================== *)
(** * What [generate_mesh] returns is cleaned *)
(* ===================================================================== *)

(** The [j]-th vertex that is kept was at an index [i] that a face uses,
    and the renumbering sends [i] to [j]. *)
Lemma select_index {A : Type} (vs : list A) (mask : list bool) (j : nat) :
  (j < length (trimesh.select vs mask))%nat ->
  exists i : nat,
    (i < length mask)%nat
    /\ nth i mask false = true
    /\ trimesh.new_index mask i = j.
Proof.
  revert mask j. induction vs as [|a vs IH]; intros [|b mask] j Hj;
    simpl in Hj; try lia.
  destruct b.
  - destruct j as [|j].
    + exists 0%nat. simpl. repeat split. lia.
    + simpl in Hj. destruct (IH mask j) as (i & Hi & Hb & Hn); [lia|].
      exists (S i). simpl. repeat split; [lia | exact Hb |].
      unfold trimesh.new_index in *. simpl. now rewrite Hn.
  - destruct (IH mask j Hj) as (i & Hi & Hb & Hn).
    exists (S i). simpl. repeat split; [lia | exact Hb |].
    unfold trimesh.new_index in *. simpl. exact Hn.
Qed.

Lemma remove_unreferenced_vertices_referenced (m : trimesh.Trimesh) :
  Forall (fun b : bool => b = true)
    (trimesh.referenced_vertices (trimesh.remove_unreferenced_vertices m)).
Proof.
  unfold trimesh.referenced_vertices at 1.
  apply Forall_forall. intros b Hb.
  apply in_map_iff in Hb. destruct Hb as (j & <- & Hj).
  apply in_seq in Hj. destruct Hj as [_ Hj]. simpl in Hj.
  destruct (select_index (trimesh.vertices m)
              (trimesh.referenced_vertices m) j Hj) as (i & Hi & Hb & Hn).
  rewrite referenced_vertices_length in Hi.
  rewrite (referenced_vertices_nth m i Hi) in Hb.
  apply existsb_exists in Hb. destruct Hb as (f & Hf & Hu).
  apply existsb_exists.
  exists (let '(a, b, c) := f in
          (trimesh.new_index (trimesh.referenced_vertices m) a,
           trimesh.new_index (trimesh.referenced_vertices m) b,
           trimesh.new_index (trimesh.referenced_vertices m) c)).
  split.
  - cbn [trimesh.remove_unreferenced_vertices trimesh.faces].
    apply in_map_iff. exists f. split; [reflexivity | exact Hf].
  - destruct f as [[a b] c]. simpl in Hu |- *.
    apply orb_true_iff in Hu. destruct Hu as [Hu|Hu].
    + apply orb_true_iff in Hu. destruct Hu as [Hu|Hu];
        apply Nat.eqb_eq in Hu; subst; rewrite Nat.eqb_refl;
        rewrite ?orb_true_r; reflexivity.
    + apply Nat.eqb_eq in Hu; subst. rewrite Nat.eqb_refl.
      rewrite ?orb_true_r; reflexivity.
Qed.

Lemma select_all {A : Type} (l : list A) (mask : list bool) :
  length mask = length l -> Forall (fun b : bool => b = true) mask ->
  trimesh.select l mask = l.
Proof.
  revert mask. induction l as [|a l IH]; intros [|b mask] Hlen Hall;
    simpl in *; try reflexivity; try discriminate.
  inversion Hall as [|? ? Hb Hrest]; subst.
  f_equal. apply IH; [congruence | exact Hrest].
Qed.

(** A mesh all of whose vertices are used by a face has bounds as soon as
    it has a vertex. *)
Lemma referenced_bounds (m : trimesh.Trimesh) :
  Forall (fun b : bool => b = true) (trimesh.referenced_vertices m) ->
  (trimesh.vertices m = [] -> trimesh.bounds m = None)
  /\ (trimesh.vertices m <> [] ->
      exists lo hi : trimesh.vec3, trimesh.bounds m = Some (lo, hi)).
Proof.
  intros Hall. unfold trimesh.bounds.
  rewrite (select_all (trimesh.vertices m) (trimesh.referenced_vertices m)
             (referenced_vertices_length m) Hall).
  destruct (trimesh.vertices m) as [|v vs].
  - split; [reflexivity | intros Hne; now contradiction Hne].
  - split; [discriminate | intros _; eauto].
Qed.

Lemma referenced_analysis (m : trimesh.Trimesh) :
  Forall (fun b : bool => b = true) (trimesh.referenced_vertices m) ->
  (trimesh.vertices m = [] ->
   industrial.analyze_geometry m = Raise TypeError)
  /\ (trimesh.vertices m <> [] ->
      exists r : industrial.Analysis, industrial.analyze_geometry m = Ok r).
Proof.
  intros Hall. destruct (referenced_bounds m Hall) as [Hnone Hsome]. split.
  - intros Hv. apply analyze_geometry_unbounded. now apply Hnone.
  - intros Hv. destruct (Hsome Hv) as (lo & hi & Hb).
    eexists. apply (analyze_geometry_bounded m lo hi Hb).
Qed.

Section Cleaned.

Import marching_cubes.

Context {T : Type} `{Field T}.

Variable libs : Libs.
Variable field : T.

(** A mesh that [generate_mesh] returns went through both cleaning steps. *)
Lemma generate_mesh_cleaned (resolution : Z) (iso_value : R)
  (bounds : option Bounds) (t t' : trace) (mesh : trimesh.Trimesh) :
  run (generate_mesh libs field resolution iso_value bounds) t
  = (Ok mesh, t') ->
  exists raw : trimesh.Trimesh,
    mesh = trimesh.remove_unreferenced_vertices
             (trimesh.remove_duplicate_faces raw).
Proof.
  unfold generate_mesh, run.
  destruct (match bounds with
            | Some b => b
            | None => ((-5, 5), (-5, 5), (-5, 5))
            end) as [[[x_min x_max] [y_min y_max]] [z_min z_max]].
  unfold mbind at 1, lift at 1.
  destruct (np.linspace x_min x_max resolution) as [x|e]; [|discriminate].
  unfold mbind at 1, lift at 1.
  destruct (np.linspace y_min y_max resolution) as [y|e]; [|discriminate].
  unfold mbind at 1, lift at 1.
  destruct (np.linspace z_min z_max resolution) as [z|e]; [|discriminate].
  unfold np.meshgrid. cbv beta iota.
  unfold mbind at 1, sample at 1.
  destruct (call field _ _ _) as [fv|e]; [|discriminate].
  unfold mbind at 1.
  match goal with
  | |- context [try_except_ImportError ?a ?b ?c] =>
      destruct (try_except_ImportError a b c) as [[raw|e] t'']
  end; [|discriminate].
  unfold ret. intros E. injection E as <- _. now exists raw.
Qed.

End Cleaned.

(** X16.  A mesh that [generate_mesh] returns has no vertex left that no
    face uses; so [analyze_geometry] raises [TypeError] on it when it has no
    vertex, and returns a report when it has one. *)
Theorem generate_mesh_output_referenced {T : Type} `{Field T}
  (libs : marching_cubes.Libs) (field : T) (resolution : Z) (iso_value : R)
  (bounds : option marching_cubes.Bounds) (t t' : marching_cubes.trace)
  (mesh : trimesh.Trimesh)
  (Hrun : marching_cubes.run
            (marching_cubes.generate_mesh libs field resolution iso_value
               bounds) t
          = (Ok mesh, t')) :
  Forall (fun b : bool => b = true) (trimesh.referenced_vertices mesh)
  /\ trimesh.vertices (trimesh.remove_unreferenced_vertices mesh)
     = trimesh.vertices mesh
  /\ (trimesh.vertices mesh = [] ->
      industrial.analyze_geometry mesh = Raise TypeError)
  /\ (trimesh.vertices mesh <> [] ->
      exists r : industrial.Analysis,
        industrial.analyze_geometry mesh = Ok r
        /\ industrial.vertex_count r = length (trimesh.vertices mesh)).
Proof.
  destruct (generate_mesh_cleaned libs field resolution iso_value bounds
              t t' mesh Hrun) as (raw & ->).
  pose proof (remove_unreferenced_vertices_referenced
                (trimesh.remove_duplicate_faces raw)) as Hall.
  destruct (referenced_bounds _ Hall) as [Hnone Hsome].
  split; [exact Hall|]. split.
  - set (m := trimesh.remove_unreferenced_vertices
                (trimesh.remove_duplicate_faces raw)) in *.
    cbn [trimesh.remove_unreferenced_vertices trimesh.vertices].
    apply select_all; [apply referenced_vertices_length | exact Hall].
  - split.
    + intros Hv. apply analyze_geometry_unbounded. now apply Hnone.
    + intros Hv. destruct (Hsome Hv) as (lo & hi & Hb).
      eexists. split; [apply (analyze_geometry_bounded _ lo hi Hb)|].
      reflexivity.
Qed.

Lemma generate_mesh_output_referenced_witness :
  exists (mesh : trimesh.Trimesh) (r : industrial.Analysis),
    fst (marching_cubes.run
           (marching_cubes.generate_mesh
              (marching_cubes.with_skimage one_triangle plain_libs)
              (ConstantField_init 5) 2 0 None) [])
    = Ok mesh
    /\ industrial.analyze_geometry mesh = Ok r
    /\ industrial.vertex_count r = 3%nat.
Proof.
  set (o := marching_cubes.run
              (marching_cubes.generate_mesh
                 (marching_cubes.with_skimage one_triangle plain_libs)
                 (ConstantField_init 5) 2 0 None) []).
  set (mesh := {| trimesh.vertices := [(0, 0, 0); (1, 0, 0); (0, 1, 0)];
                  trimesh.faces := [(0, 1, 2)%nat];
                  trimesh.vertex_normals := Some [] |}).
  assert (Hfst : fst o = Ok mesh) by reflexivity.
  assert (Hrun : o = (Ok mesh, snd o)).
  { rewrite <- Hfst. apply surjective_pairing. }
  assert (Hv : trimesh.vertices mesh <> []) by discriminate.
  destruct (generate_mesh_output_referenced
              (marching_cubes.with_skimage one_triangle plain_libs)
              (ConstantField_init 5) 2 0 None [] (snd o) mesh Hrun)
    as (_ & _ & _ & Hr).
  destruct (Hr Hv) as (r & Hr1 & Hr2).
  exists mesh, r. split; [exact Hfst|]. split; [exact Hr1 | exact Hr2].
Defined.

(* ===================================================================== *)
(** * Extraction for fields that answer element by element *)
(* ===================================================================== *)

Section ElementWise.

Import marching_cubes.

Context {T : Type} `{Field T}.

Variable libs : Libs.
Variable field : T.

(** On arrays of points the field returns one value per point. *)
Hypothesis call_points :
  forall pts : list (R * R * R),
  exists l : list R,
    call field (np.Arr (map px pts)) (np.Arr (map py pts))
      (np.Arr (map pz pts))
    = Ok (np.Arr l)
    /\ length l = length pts.

Lemma call_grid (x y z : list R) :
  exists l : list R,
    call field (np.Arr (fst (fst (np.meshgrid x y z))))
      (np.Arr (snd (fst (np.meshgrid x y z))))
      (np.Arr (snd (np.meshgrid x y z)))
    = Ok (np.Arr l)
    /\ length l = length (fst (fst (np.meshgrid x y z))).
Proof.
  pose proof (meshgrid_length x y z) as Hlen.
  destruct (np.meshgrid x y z) as [[X Y] Z]. cbn [fst snd].
  destruct Hlen as (HX & HY & HZ).
  assert (HXY : length X = length Y) by congruence.
  assert (HYZ : length Y = length Z) by congruence.
  destruct (rows_columns X Y Z HXY HYZ) as (EX & EY & EZ).
  destruct (call_points (np.rows X Y Z)) as (l & Hl & Hlen).
  rewrite EX, EY, EZ in Hl. exists l. split; [exact Hl|].
  rewrite Hlen. now apply rows_length.
Qed.

(** Without scikit-image a call returns a mesh, after sampling the field
    twice on the same grid. *)
Lemma fallback_returns (resolution : Z) (iso_value : R)
  (bounds : option Bounds) :
  (0 <= resolution)%Z ->
  exists (X Y Z : list R) (mesh : trimesh.Trimesh),
    grid (bounds_or_default bounds) resolution = Ok (X, Y, Z)
    /\ uniform
         (generate_mesh (without_skimage libs) field resolution iso_value
            bounds)
         (Ok mesh) [Sampled X Y Z; Sampled X Y Z].
Proof.
  intros Hn.
  unfold generate_mesh, grid.
  change ((-5, 5, (-5, 5), (-5, 5)) : Bounds) with default_bounds.
  fold (bounds_or_default bounds).
  destruct (bounds_or_default bounds)
    as [[[x_min x_max] [y_min y_max]] [z_min z_max]].
  destruct (linspace_ok x_min x_max resolution Hn) as (x & Hx & _).
  destruct (linspace_ok y_min y_max resolution Hn) as (y & Hy & _).
  destruct (linspace_ok z_min z_max resolution Hn) as (z & Hz & _).
  unfold _marching_cubes_simple.
  rewrite Hx, Hy, Hz. cbn [Py.bind].
  destruct (call_grid x y z) as (l & Hl & Hlen).
  pose proof (meshgrid_length x y z) as (HX & HY & HZ).
  unfold np.meshgrid in Hl, Hlen |- *. cbn [fst snd] in Hl, Hlen.
  cbv beta iota.
  match type of Hl with
  | call _ (np.Arr ?a) (np.Arr ?b) (np.Arr ?c) = _ =>
      set (X := a) in *; set (Y := b) in *; set (Z := c) in *
  end.
  exists X, Y, Z.
  set (bs := map (fun v => np.ltb v (1 / 10 * np.std (np.Arr l)))
               (map Rabs (map (fun v => v - iso_value) l))).
  assert (Hbs : length bs = length X).
  { unfold bs. now rewrite !length_map. }
  set (points := stack3 (np.select X bs) (np.select Y bs) (np.select Z bs)).
  exists (trimesh.remove_unreferenced_vertices
            (trimesh.remove_duplicate_faces
               (if (length points <? 4)%nat then trimesh.Trimesh_init_empty
                else try_except
                       (simplices <- Delaunay libs points ;;
                        mesh <- Trimesh_of_simplices libs points simplices ;;
                        Trimesh_getitem libs mesh
                          (np.ltb (/ 10 ^ 10) (trimesh.area mesh)))
                       trimesh.Trimesh_init_empty))).
  split; [reflexivity|].
  intros t. unfold run, mbind, lift, sample, try_except_ImportError,
    import_skimage_measure, without_skimage, ret, raise.
  cbn [skimage_measure Delaunay Trimesh_of_simplices Trimesh_getitem].
  fold X. fold Y. fold Z. rewrite !Hl.
  unfold np.subtract. rewrite ufunc2_scalar_r.
  unfold np.abs, np.less. cbn [np.ufunc1]. fold bs.
  unfold np.getitem.
  replace (length Y) with (length X) by congruence.
  replace (length Z) with (length X) by congruence.
  rewrite Hbs, Nat.eqb_refl. fold points.
  rewrite <- app_assoc. cbn [app].
  destruct (length points <? 4)%nat; reflexivity.
Qed.

(** With scikit-image (whose [marching_cubes] has no parameter [origin])
    a call raises. *)
Lemma primary_path_never_returns
  (core : nat -> list R -> R -> R * R * R -> skimage.surface)
  (resolution : Z) (iso_value : R) (bounds : option Bounds) :
  ((resolution < 0)%Z ->
   uniform
     (generate_mesh (with_skimage (skimage.marching_cubes core) libs) field
        resolution iso_value bounds)
     (Raise ValueError) [])
  /\ (resolution = 1%Z ->
      exists X Y Z : list R,
        uniform
          (generate_mesh (with_skimage (skimage.marching_cubes core) libs)
             field resolution iso_value bounds)
          (Raise ZeroDivisionError) [Sampled X Y Z])
  /\ ((0 <= resolution)%Z -> resolution <> 1%Z ->
      exists X Y Z : list R,
        uniform
          (generate_mesh (with_skimage (skimage.marching_cubes core) libs)
             field resolution iso_value bounds)
          (Raise TypeError) [Sampled X Y Z]).
Proof.
  assert (Hgrid : (0 <= resolution)%Z ->
            exists (X Y Z : list R) (fv : np.ndarray),
              grid (bounds_or_default bounds) resolution = Ok (X, Y, Z)
              /\ call field (np.Arr X) (np.Arr Y) (np.Arr Z) = Ok fv).
  { intros Hn. unfold grid.
    destruct (bounds_or_default bounds)
      as [[[x_min x_max] [y_min y_max]] [z_min z_max]].
    destruct (linspace_ok x_min x_max resolution Hn) as (x & -> & _).
    destruct (linspace_ok y_min y_max resolution Hn) as (y & -> & _).
    destruct (linspace_ok z_min z_max resolution Hn) as (z & -> & _).
    cbn [Py.bind].
    destruct (call_grid x y z) as (l & Hl & _).
    destruct (np.meshgrid x y z) as [[X Y] Z]. cbn [fst snd] in Hl.
    exists X, Y, Z, (np.Arr l). split; [reflexivity | exact Hl]. }
  split; [|split].
  - intros Hn.
    pose proof (generate_mesh_shape
                  (with_skimage (skimage.marching_cubes core) libs) field
                  resolution iso_value bounds) as Hs.
    rewrite (grid_negative (bounds_or_default bounds) resolution Hn) in Hs.
    exact Hs.
  - intros ->. destruct Hgrid as (X & Y & Z & fv & Hg & Hc); [lia|].
    exists X, Y, Z.
    exact (primary_path_resolution_1 libs field (skimage.marching_cubes core)
             iso_value bounds X Y Z fv Hg Hc).
  - intros Hn H1. destruct (Hgrid Hn) as (X & Y & Z & fv & Hg & Hc).
    exists X, Y, Z.
    exact (primary_path_raises libs field core resolution iso_value bounds
             X Y Z fv H1 Hg Hc).
Qed.

End ElementWise.

(** ** The two surfaces of [core/tpms.py] *)

Lemma Gyroid_answers_element_wise (g : Gyroid) (pts : list (R * R * R)) :
  exists l : list R,
    call g (np.Arr (map px pts)) (np.Arr (map py pts)) (np.Arr (map pz pts))
    = Ok (np.Arr l)
    /\ length l = length pts.
Proof.
  destruct g as [b t]. exists (map (gyroid_value b t) pts).
  split; [apply Gyroid_call_points | apply length_map].
Qed.

Lemma SchwarzP_answers_element_wise (s : SchwarzP)
  (pts : list (R * R * R)) :
  exists l : list R,
    call s (np.Arr (map px pts)) (np.Arr (map py pts)) (np.Arr (map pz pts))
    = Ok (np.Arr l)
    /\ length l = length pts.
Proof.
  destruct s as [b t]. exists (map (schwarz_p_value b t) pts).
  split; [apply SchwarzP_call_points | apply length_map].
Qed.

(** X17.  Without scikit-image, [generate_mesh] on a Gyroid or a SchwarzP
    field returns a mesh for every resolution that is not negative, for
    every iso value and every box, whatever scipy and trimesh do in the
    fall-back (their exceptions are swallowed); the field is evaluated
    twice on the whole grid, once by [generate_mesh] and once more by
    [_marching_cubes_simple]. *)
Theorem tpms_fallback_returns (libs : marching_cubes.Libs)
  (g : Gyroid) (s : SchwarzP) (resolution : Z) (iso_value : R)
  (bounds : option marching_cubes.Bounds)
  (Hn : (0 <= resolution)%Z) :
  exists X Y Z : list R,
    marching_cubes.grid (marching_cubes.bounds_or_default bounds) resolution
    = Ok (X, Y, Z)
    /\ (exists mesh : trimesh.Trimesh,
          marching_cubes.uniform
            (marching_cubes.generate_mesh
               (marching_cubes.without_skimage libs) g resolution iso_value
               bounds)
            (Ok mesh)
            [marching_cubes.Sampled X Y Z; marching_cubes.Sampled X Y Z])
    /\ (exists mesh : trimesh.Trimesh,
          marching_cubes.uniform
            (marching_cubes.generate_mesh
               (marching_cubes.without_skimage libs) s resolution iso_value
               bounds)
            (Ok mesh)
            [marching_cubes.Sampled X Y Z; marching_cubes.Sampled X Y Z]).
Proof.
  destruct (fallback_returns libs g (Gyroid_answers_element_wise g)
              resolution iso_value bounds Hn)
    as (X & Y & Z & mg & Hg & Hug).
  destruct (fallback_returns libs s (SchwarzP_answers_element_wise s)
              resolution iso_value bounds Hn)
    as (X' & Y' & Z' & ms & Hs & Hus).
  rewrite Hg in Hs. injection Hs as <- <- <-.
  exists X, Y, Z. split; [exact Hg|].
  split; [exists mg; exact Hug | exists ms; exact Hus].
Qed.

Lemma tpms_fallback_returns_witness :
  (0 <= 50)%Z
  /\ exists (mesh : trimesh.Trimesh) (t : marching_cubes.trace),
       marching_cubes.run
         (marching_cubes.generate_mesh
            (marching_cubes.without_skimage plain_libs)
            (Gyroid_init 10 0) 50 0 None) []
       = (Ok mesh, t)
       /\ length t = 2%nat.
Proof.
  assert (Hn : (0 <= 50)%Z) by lia.
  split; [exact Hn|].
  destruct (tpms_fallback_returns plain_libs (Gyroid_init 10 0)
              (SchwarzP_init 10 0) 50 0 None Hn)
    as (X & Y & Z & _ & (mesh & Hu) & _).
  exists mesh, ([] ++ [marching_cubes.Sampled X Y Z;
                       marching_cubes.Sampled X Y Z]).
  split; [exact (Hu []) | reflexivity].
Defined.

(** The exception of a call by its resolution, when scikit-image is there. *)
Lemma primary_path_exception {T : Type} `{Field T}
  (libs : marching_cubes.Libs) (field : T)
  (call_points :
     forall pts : list (R * R * R),
     exists l : list R,
       call field (np.Arr (map px pts)) (np.Arr (map py pts))
         (np.Arr (map pz pts))
       = Ok (np.Arr l)
       /\ length l = length pts)
  (core : nat -> list R -> R -> R * R * R -> skimage.surface)
  (resolution : Z) (iso_value : R) (bounds : option marching_cubes.Bounds) :
  exists evs : marching_cubes.trace,
    marching_cubes.uniform
      (marching_cubes.generate_mesh
         (marching_cubes.with_skimage (skimage.marching_cubes core) libs)
         field resolution iso_value bounds)
      (Raise (if (resolution <? 0)%Z then ValueError
              else if (resolution =? 1)%Z then ZeroDivisionError
                   else TypeError))
      evs.
Proof.
  destruct (primary_path_never_returns libs field call_points core
              resolution iso_value bounds) as (Hneg & Hone & Hother).
  destruct (Z.ltb_spec resolution 0) as [Hlt|Hge].
  - eexists. exact (Hneg Hlt).
  - destruct (Z.eqb_spec resolution 1) as [H1|H1].
    + destruct (Hone H1) as (X & Y & Z & Hu). eexists. exact Hu.
    + destruct (Hother Hge H1) as (X & Y & Z & Hu). eexists. exact Hu.
Qed.

(** X18.  With scikit-image installed, whose [marching_cubes] has no
    parameter [origin], [generate_mesh] never returns a mesh for a Gyroid or
    a SchwarzP field: it raises [ValueError] for a negative resolution,
    [ZeroDivisionError] for resolution 1 and [TypeError] for every other
    resolution, and the fall-back is not tried. *)
Theorem tpms_primary_path_never_returns (libs : marching_cubes.Libs)
  (core : nat -> list R -> R -> R * R * R -> skimage.surface)
  (g : Gyroid) (s : SchwarzP) (resolution : Z) (iso_value : R)
  (bounds : option marching_cubes.Bounds) (t : marching_cubes.trace) :
  fst (marching_cubes.run
         (marching_cubes.generate_mesh
            (marching_cubes.with_skimage (skimage.marching_cubes core) libs)
            g resolution iso_value bounds) t)
  = Raise (if (resolution <? 0)%Z then ValueError
           else if (resolution =? 1)%Z then ZeroDivisionError
                else TypeError)
  /\ fst (marching_cubes.run
            (marching_cubes.generate_mesh
               (marching_cubes.with_skimage (skimage.marching_cubes core)
                  libs)
               s resolution iso_value bounds) t)
     = Raise (if (resolution <? 0)%Z then ValueError
              else if (resolution =? 1)%Z then ZeroDivisionError
                   else TypeError).
Proof.
  destruct (primary_path_exception libs g (Gyroid_answers_element_wise g)
              core resolution iso_value bounds) as (eg & Hg).
  destruct (primary_path_exception libs s (SchwarzP_answers_element_wise s)
              core resolution iso_value bounds) as (es & Hs).
  rewrite (Hg t), (Hs t). split; reflexivity.
Qed.

(* ===================================================================== *)
(** * examples/basic_tpms.py *)
(* ===================================================================== *)

(** X19.  [generate_gyroid_example] without scikit-image: the mesh is
    generated (the field being evaluated twice); when it has no vertex the
    example raises the [TypeError] of [analyze_geometry] and nothing is
    exported; when it has one, the outcome is that of the export.  With
    scikit-image the example raises [TypeError] whatever the export does. *)
Theorem generate_gyroid_example_outcomes (libs : marching_cubes.Libs)
  (export : trimesh.Trimesh -> result unit) :
  (exists (X Y Z : list R) (mesh : trimesh.Trimesh),
     marching_cubes.uniform
       (marching_cubes.generate_mesh (marching_cubes.without_skimage libs)
          (Gyroid_init 10 0) 50 0 (Some ((-5, 5), (-5, 5), (-5, 5))))
       (Ok mesh)
       [marching_cubes.Sampled X Y Z; marching_cubes.Sampled X Y Z]
     /\ marching_cubes.uniform
          (basic_tpms.generate_gyroid_example
             (marching_cubes.without_skimage libs) export)
          (match trimesh.vertices mesh with
           | [] => Raise TypeError
           | _ :: _ =>
               match export mesh with
               | Ok _ => Ok mesh
               | Raise e => Raise e
               end
           end)
          [marching_cubes.Sampled X Y Z; marching_cubes.Sampled X Y Z])
  /\ (forall core : nat -> list R -> R -> R * R * R -> skimage.surface,
      exists evs : marching_cubes.trace,
        marching_cubes.uniform
          (basic_tpms.generate_gyroid_example
             (marching_cubes.with_skimage (skimage.marching_cubes core) libs)
             export)
          (Raise TypeError) evs).
Proof.
  split.
  - assert (Hn : (0 <= 50)%Z) by lia.
    destruct (fallback_returns libs (Gyroid_init 10 0)
                (Gyroid_answers_element_wise (Gyroid_init 10 0))
                50 0 (Some ((-5, 5), (-5, 5), (-5, 5))) Hn)
      as (X & Y & Z & mesh & _ & Hu).
    exists X, Y, Z, mesh. split; [exact Hu|].
    intros t. unfold basic_tpms.generate_gyroid_example.
    unfold marching_cubes.run, marching_cubes.mbind at 1.
    pose proof (Hu t) as Hrun. unfold marching_cubes.run in Hrun.
    rewrite Hrun.
    destruct (generate_mesh_cleaned (marching_cubes.without_skimage libs)
                (Gyroid_init 10 0) 50 0 (Some ((-5, 5), (-5, 5), (-5, 5)))
                t _ mesh Hrun) as (raw & Hraw).
    pose proof (remove_unreferenced_vertices_referenced
                  (trimesh.remove_duplicate_faces raw)) as Hall.
    rewrite <- Hraw in Hall.
    destruct (referenced_analysis mesh Hall) as [Hnone Hsome].
    unfold marching_cubes.mbind, marching_cubes.lift, marching_cubes.ret.
    destruct (trimesh.vertices mesh) as [|v vs].
    + rewrite (Hnone eq_refl). reflexivity.
    + destruct Hsome as (r & ->); [discriminate|].
      destruct (export mesh); reflexivity.
  - intros core.
    destruct (primary_path_exception libs (Gyroid_init 10 0)
                (Gyroid_answers_element_wise (Gyroid_init 10 0))
                core 50 0 (Some ((-5, 5), (-5, 5), (-5, 5)))) as (evs & Hu).
    exists evs. intros t. unfold basic_tpms.generate_gyroid_example.
    unfold marching_cubes.run, marching_cubes.mbind at 1.
    pose proof (Hu t) as Hrun. unfold marching_cubes.run in Hrun.
    rewrite Hrun. reflexivity.
Qed.

(* ===================================================================== *)
(** * app/main.py *)
(* ===================================================================== *)





(** X21.  With scikit-image installed, whose [marching_cubes] has no
    parameter [origin], every generation step of the script fails: the
    session's mesh is set to [None], the key ['field'] is left as it was,
    and the one message shown is the error of [generate_mesh], which for the
    resolutions of the slider (20 to 100) is the [TypeError]. *)
Theorem app_with_skimage_shows_error (libs : marching_cubes.Libs)
  (core : nat -> list R -> R -> R * R * R -> skimage.surface)
  (c : app.controls) (s : app.session_state) (t : marching_cubes.trace)
  (Hgen : app.regenerates c s) :
  exists (e : exn) (t' : marching_cubes.trace),
    app.generate
      (marching_cubes.with_skimage (skimage.marching_cubes core) libs) c s t
    = ({| app.mesh := Some None; app.field := app.field s |},
       [app.error_generating e], t')
    /\ ((20 <= app.resolution c <= 100)%Z -> e = TypeError).
Proof.
  exists (if (app.resolution c <? 0)%Z then ValueError
          else if (app.resolution c =? 1)%Z then ZeroDivisionError
               else TypeError).
  assert (Hcond : app.generate_button c
                  || match app.mesh s with
                     | Some _ => false
                     | None => true
                     end = true).
  { destruct Hgen as [-> | ->]; [reflexivity | apply orb_true_r]. }
  assert (Hres : (20 <= app.resolution c <= 100)%Z ->
                 (if (app.resolution c <? 0)%Z then ValueError
                  else if (app.resolution c =? 1)%Z then ZeroDivisionError
                       else TypeError) = TypeError).
  { intros Hr.
    destruct (Z.ltb_spec (app.resolution c) 0); [lia|].
    destruct (Z.eqb_spec (app.resolution c) 1); [lia | reflexivity]. }
  unfold app.generate. rewrite Hcond.
  destruct (app.primitive_type c).
  - destruct (primary_path_exception libs
                (Gyroid_init (app.scale c) (app.thickness c))
                (Gyroid_answers_element_wise _) core (app.resolution c)
                (app.iso_value c)
                (Some (app.bounds_x c, app.bounds_y c, app.bounds_z c)))
      as (evs & Hu).
    exists (t ++ evs). rewrite (Hu t). split; [reflexivity | exact Hres].
  - destruct (primary_path_exception libs
                (SchwarzP_init (app.scale c) (app.thickness c))
                (SchwarzP_answers_element_wise _) core (app.resolution c)
                (app.iso_value c)
                (Some (app.bounds_x c, app.bounds_y c, app.bounds_z c)))
      as (evs & Hu).
    exists (t ++ evs). rewrite (Hu t). split; [reflexivity | exact Hres].
Qed.

Lemma app_with_skimage_shows_error_witness :
  app.regenerates app.default_controls app.first_run
  /\ exists t' : marching_cubes.trace,
       app.generate
         (marching_cubes.with_skimage (skimage.marching_cubes no_surface)
            plain_libs)
         app.default_controls app.first_run []
       = ({| app.mesh := Some None; app.field := None |},
          [app.error_generating TypeError], t').
Proof.
  assert (Hgen : app.regenerates app.default_controls app.first_run).
  { right. reflexivity. }
  split; [exact Hgen|].
  destruct (app_with_skimage_shows_error plain_libs no_surface
              app.default_controls app.first_run [] Hgen)
    as (e & t' & Hrun & He).
  exists t'. rewrite Hrun, He; [reflexivity|].
  cbn. lia.
Defined.

(* ===================================================================== *)
(** * When the fall-back gives the empty mesh *)
(* ===================================================================== *)



Section EmptyFallback.

Import marching_cubes.

Context {T : Type} `{Field T}.

Variable libs : Libs.
Variable field : T.

Hypothesis call_points :
  forall pts : list (R * R * R),
  exists l : list R,
    call field (np.Arr (map px pts)) (np.Arr (map py pts))
      (np.Arr (map pz pts))
    = Ok (np.Arr l)
    /\ length l = length pts.


End EmptyFallback.


